(** * GCE persistent disks: a shallow embedding of
      [perfkitbenchmarker/providers/gcp/gce_disk.py]

    The Python class [GceDisk] drives the life cycle of a disk through the
    [gcloud] command line: every method builds one command, issues it and
    reads the triple (stdout, stderr, exit code) that comes back.

    The embedding keeps the shape of the module:
    - Python values that cross the interfaces ([json.loads] results, flag
      and metadata values) are an inductive type [pyval];
    - dictionaries are [gmap]s over strings;
    - a method is a state-passing function that may raise: the state is
      kept as it was at the moment of the [raise];
    - the module-level table [DISK_METADATA] is part of the process state,
      since the constructor writes to it through an alias;
    - the collaborators that live in other modules ([util.GcloudCommand]'s
      common flags, [cmd.Issue], [cmd.IssueRetryable], [json.loads], the
      absl flags, ...) are the variables of one section. *)

From Stdlib Require Import ZArith String List Ascii SpecFloat Lia.
From stdpp Require Import base option strings gmap pretty.

Local Open Scope string_scope.
Local Open Scope Z_scope.
Local Set Warnings "-register-all".

(** ** Python values *)

(** The values [json.loads] can return, which are also the values stored in
    command flags and in disk metadata. [PyNone] is Python's [None]; a
    [float] is kept as its IEEE 754 description. *)
Inductive pyval : Type :=
| PyNone
| PyBool (b : bool)
| PyInt (z : Z)
| PyFloat (f : spec_float)
| PyStr (s : string)
| PyList (l : list pyval)
| PyDict (kvs : list (string * pyval)).

(** [bool(v)]: Python's truth value. *)
Definition truthy (v : pyval) : bool :=
  match v with
  | PyNone => false
  | PyBool b => b
  | PyInt z => negb (z =? 0)
  | PyFloat (S754_zero _) => false
  | PyFloat _ => true
  | PyStr s => negb (String.eqb s "")
  | PyList l => match l with [] => false | _ => true end
  | PyDict kvs => match kvs with [] => false | _ => true end
  end.

(** [v == s] for a string literal [s]: only a [str] with the same
    characters is equal to it. *)
Definition eq_str (v : pyval) (s : string) : bool :=
  match v with
  | PyStr t => String.eqb t s
  | _ => false
  end.

(** Truth value of an optional string ([None] and [''] are false). *)
Definition truthy_str (o : option string) : bool :=
  match o with
  | Some s => negb (String.eqb s "")
  | None => false
  end.

(** Truth value of an optional list ([None] and [[]] are false). *)
Definition truthy_list {A} (o : option (list A)) : bool :=
  match o with
  | Some (_ :: _) => true
  | _ => false
  end.

(** Truth value of an optional integer ([None] and [0] are false). *)
Definition truthy_int (o : option Z) : bool :=
  match o with
  | Some z => negb (z =? 0)
  | None => false
  end.

Definition py_of_str (o : option string) : pyval :=
  match o with
  | Some s => PyStr s
  | None => PyNone
  end.

(** [needle in hay] on strings. *)
Fixpoint str_in (needle hay : string) : bool :=
  if String.prefix needle hay then true
  else match hay with
       | EmptyString => false
       | String _ rest => str_in needle rest
       end.

(** [sep.join(l)]. *)
Definition join (sep : string) (l : list string) : string :=
  String.concat sep l.

(** The line feed of the ['\n'] escapes. *)
Definition LF : string := String (ascii_of_nat 10) EmptyString.

(** ** Exceptions and the method monad *)

Inductive exn : Type :=
| KeyError (key : string)
| TypeError (msg : string)
| ValueError (msg : string)
| RecursionError (msg : string)
| CalledProcessException (msg : string)
| CollaboratorError (what : string).

(** What [except ValueError] catches: a [ValueError] or one of its
    subclasses (the [JSONDecodeError] of [json.loads] is one; all of them
    are kept as [ValueError] here). *)
Definition is_ValueError (e : exn) : bool :=
  match e with
  | ValueError _ => true
  | _ => false
  end.

Inductive result (A : Type) : Type :=
| Ok (a : A)
| Raise (e : exn).
Arguments Ok {A} a.
Arguments Raise {A} e.

(** A computation over a state [S]: it returns or raises, and in both cases
    hands back the state it reached. *)
Definition M (S A : Type) : Type := S -> result A * S.

Definition run {S A} (m : M S A) (s : S) : result A * S := m s.

Global Instance M_ret {S} : MRet (M S) :=
  fun A a s => (Ok a, s).

Global Instance M_bind {S} : MBind (M S) :=
  fun A B f m s =>
    match m s with
    | (Ok a, s') => f a s'
    | (Raise e, s') => (Raise e, s')
    end.

Global Instance M_throw {S} : MThrow exn (M S) :=
  fun A e s => (Raise e, s).

Definition get {S} : M S S := fun s => (Ok s, s).
Definition modify {S} (f : S -> S) : M S unit := fun s => (Ok tt, f s).

(** A pure step that may raise. *)
Definition lift {S A} (r : result A) : M S A := fun s => (r, s).

(** ** Constants of the [disk] module *)

(** Modelled from the spec: the constants of [perfkitbenchmarker.disk] that
    the tables below use; that module is not part of the sources at hand.
    The spec names them as the abstract kinds (standard, remote-fast,
    local-ephemeral), the two metadata keys (media kind, replication scope)
    and their values. *)
Module disk.
Definition STANDARD : string := "standard".
Definition REMOTE_SSD : string := "remote_ssd".
Definition LOCAL : string := "local".
Definition MEDIA : string := "media".
Definition REPLICATION : string := "replication".
Definition HDD : string := "hdd".
Definition SSD : string := "ssd".
Definition ZONE : string := "zone".
Definition REGION : string := "region".
Definition NONE : string := "none".
End disk.

(** ** Module-level constants of [gce_disk] *)

Definition PD_STANDARD : string := "pd-standard".
Definition PD_SSD : string := "pd-ssd".
Definition PD_BALANCED : string := "pd-balanced".
Definition PD_EXTREME : string := "pd-extreme".

Definition DISK_TYPE : gmap string string :=
  {[ disk.STANDARD := PD_STANDARD; disk.REMOTE_SSD := PD_SSD ]}.

Definition REGIONAL_DISK_SCOPE : string := "regional".

(** The value of [DISK_METADATA] when the module has just been imported. *)
Definition DISK_METADATA : gmap string (gmap string string) :=
  {[ PD_STANDARD := {[ disk.MEDIA := disk.HDD; disk.REPLICATION := disk.ZONE ]};
     PD_BALANCED := {[ disk.MEDIA := disk.SSD; disk.REPLICATION := disk.ZONE ]};
     PD_SSD := {[ disk.MEDIA := disk.SSD; disk.REPLICATION := disk.ZONE ]};
     PD_EXTREME := {[ disk.MEDIA := disk.SSD; disk.REPLICATION := disk.ZONE ]};
     disk.LOCAL := {[ disk.MEDIA := disk.SSD; disk.REPLICATION := disk.NONE ]} ]}.

Definition SCSI : string := "SCSI".
Definition NVME : string := "NVME".

(** ** Objects *)

(** The part of a disk spec that [GceDisk] reads. *)
Module DiskSpec.
Record t : Type := { disk_type : string; disk_size : Z }.
End DiskSpec.

(** The part of a [GceVirtualMachine] that [Attach] reads. *)
Module VM.
Record t : Type := { name : string }.
End VM.

(** The attributes of a [GceDisk] instance. [disk_size], [disk_type] and
    [metadata] are inherited from [BaseDisk]. *)
Record GceDisk : Type := {
  disk_size : Z;
  disk_type : string;
  metadata : gmap string pyval;
  attached_vm_name : option string;
  image : option string;
  image_project : option string;
  name : string;
  zone : string;
  project : string;
  replica_zones : option (list string);
  region : string;
  provisioned_iops : option Z;
}.

(** [self.attached_vm_name = v]. *)
Definition set_attached_vm_name (v : option string) (self : GceDisk) : GceDisk :=
  {| disk_size := disk_size self;
     disk_type := disk_type self;
     metadata := metadata self;
     attached_vm_name := v;
     image := image self;
     image_project := image_project self;
     name := name self;
     zone := zone self;
     project := project self;
     replica_zones := replica_zones self;
     region := region self;
     provisioned_iops := provisioned_iops self |}.

(** The absl flags the module reads. *)
Record Flags : Type := {
  gcp_provisioned_iops : option Z;
  gce_ssd_interface : string;
  retry_on_rate_limited : bool;
}.

(** ** The [util] collaborators *)

Module util.

(** The state of a [GcloudCommand] object: positional arguments, the flag
    dictionary and the [rate_limited] attribute. *)
Record Command : Type := {
  args : list pyval;
  flags : gmap string pyval;
  rate_limited : bool;
}.

(** [cmd.flags[k] = v]. *)
Definition setflag (k : string) (v : pyval) (cmd : Command) : Command :=
  {| args := args cmd; flags := <[k := v]> (flags cmd);
     rate_limited := rate_limited cmd |}.

(** [del cmd.flags[k]]: a [KeyError] when the key is not there. *)
Definition delflag (k : string) (cmd : Command) : result Command :=
  match flags cmd !! k with
  | Some _ => Ok {| args := args cmd; flags := delete k (flags cmd);
                    rate_limited := rate_limited cmd |}
  | None => Raise (KeyError k)
  end.

Definition set_rate_limited (b : bool) (cmd : Command) : Command :=
  {| args := args cmd; flags := flags cmd; rate_limited := b |}.

(** What one issuance of a command gives back: the triple the call
    returns and the value it leaves in [cmd.rate_limited]. *)
Record Issued : Type := {
  stdout : string;
  stderr : string;
  retcode : Z;
  was_rate_limited : bool;
}.

(** The index of the last ['-'] of a string, counted in characters from
    the start, if there is one. *)
Fixpoint last_dash (s : string) : option nat :=
  match s with
  | EmptyString => None
  | String c rest =>
      match last_dash rest with
      | Some i => Some (S i)
      | None => if Ascii.eqb c "-" then Some O else None
      end
  end.

(** Modelled from the spec: [util.GetRegionFromZone], which is not part
    of the sources at hand. The spec derives the region as the "zone with
    trailing zone-suffix stripped": everything from the last dash on is
    dropped ([us-central1-a] gives [us-central1]); a zone without a dash
    has no suffix to strip. *)
Definition GetRegionFromZone (zone : string) : string :=
  match last_dash zone with
  | Some i => String.substring 0 i zone
  | None => zone
  end.

End util.

(** ** Subscripting and dictionaries *)

(** The item of a [dict] under a key; the list holds the items of the
    dictionary, one per key. *)
Fixpoint dict_get (key : string) (kvs : list (string * pyval)) : option pyval :=
  match kvs with
  | [] => None
  | (k, v) :: rest => if String.eqb k key then Some v else dict_get key rest
  end.

(** [v[key]] for a string key: only a [dict] holding the key answers. *)
Definition getitem_str (v : pyval) (key : string) : result pyval :=
  match v with
  | PyDict kvs =>
      match dict_get key kvs with
      | Some item => Ok item
      | None => Raise (KeyError key)
      end
  | PyList _ => Raise (TypeError "list indices must be integers or slices, not str")
  | PyStr _ => Raise (TypeError "string indices must be integers")
  | PyNone => Raise (TypeError "'NoneType' object is not subscriptable")
  | PyBool _ => Raise (TypeError "'bool' object is not subscriptable")
  | PyInt _ => Raise (TypeError "'int' object is not subscriptable")
  | PyFloat _ => Raise (TypeError "'float' object is not subscriptable")
  end.

(** [table[key]] on a dictionary of the module. *)
Definition table_get {V} (table : gmap string V) (key : string) : result V :=
  match table !! key with
  | Some v => Ok v
  | None => Raise (KeyError key)
  end.

Definition py_of_int (o : option Z) : pyval :=
  match o with
  | Some z => PyInt z
  | None => PyNone
  end.

Definition py_of_list (o : option (list string)) : pyval :=
  match o with
  | Some l => PyList (PyStr <$> l)
  | None => PyNone
  end.

(** ** The collaborators *)

(** What [gce_disk] takes from the rest of the program and from the
    standard library. None of it is defined in the module: the class is the
    interface the methods are written against, and every property below
    holds for every implementation of it. *)
Class Collaborators : Type := {
  (** [FLAGS]: the parsed command-line flags, read and never written. *)
  FLAGS : Flags;
  (** The world outside the process: the cloud control plane as the
      [gcloud] tool shows it. *)
  World : Type;
  (** The flags [util.GcloudCommand] derives from the resource it is built
      for (the spec's implicit zone flag among them). *)
  common_flags : GceDisk -> gmap string pyval;
  (** [cmd.Issue] with its keyword arguments: runs the command against the
      world. *)
  Issue : list (string * bool) -> util.Command -> World -> util.Issued * World;
  (** [cmd.IssueRetryable()]: retries inside, returns (stdout, stderr) or
      raises. *)
  IssueRetryable : util.Command -> World -> result (string * string) * World;
  (** [cmd.GetCommand()]: the command line as a list of words. *)
  GetCommand : util.Command -> list string;
  (** [util.MakeFormattedDefaultTags()]. *)
  MakeFormattedDefaultTags : World -> string;
  (** [util.CheckGcloudResponseKnownFailures(stderr, retcode)]: returns or
      raises. *)
  CheckGcloudResponseKnownFailures : string -> Z -> result unit;
  (** [json.loads]: the value it returns, or the exception it raises, be it
      the [ValueError] of a text that is not JSON or another one (the
      [RecursionError] of a text nested too deep). *)
  json_loads : string -> result pyval;
  (** The metadata [BaseDisk.__init__] leaves in [self.metadata]. *)
  BaseDisk_metadata : DiskSpec.t -> gmap string pyval;
}.

(** ** The class [GceDisk] *)

Section GceDisk.

Context `{Collaborators}.

(** The state a method runs in: the instance and the world. *)
Definition State : Type := GceDisk * World.

(** Modelled from the spec: the constructor of [util.GcloudCommand], which
    is not part of the sources at hand. "Given a resource and an operation
    verb, returns a mutable flag-set command object" that "tracks whether
    the most recent issuance was rejected due to provider rate-limiting":
    the positional arguments are kept, the flags start as the common flags
    of the resource, and nothing has been rate limited yet. *)
Definition GcloudCommand (resource : GceDisk) (args : list pyval) : util.Command :=
  {| util.args := args;
     util.flags := common_flags resource;
     util.rate_limited := false |}.

Definition issue (kwargs : list (string * bool)) (cmd : util.Command)
  : M State util.Issued :=
  fun s => let (r, w') := Issue kwargs cmd s.2 in (Ok r, (s.1, w')).

Definition issue_retryable (cmd : util.Command) : M State (string * string) :=
  fun s => let (r, w') := IssueRetryable cmd s.2 in (r, (s.1, w')).

(** *** [__init__] *)

(** The constructor runs in the state of the module, the current value of
    the [DISK_METADATA] table. [disk_metadata] is an alias of the entry of
    the table, so the assignment through it updates the table itself. *)
Definition __init__ (disk_spec : DiskSpec.t) (name zone project : string)
    (image image_project : option string)
    (replica_zones : option (list string))
  : M (gmap string (gmap string string)) GceDisk :=
  (* super(GceDisk, self).__init__(disk_spec) *)
  let disk_size := DiskSpec.disk_size disk_spec in
  let disk_type := DiskSpec.disk_type disk_spec in
  let metadata := BaseDisk_metadata disk_spec in
  let region := util.GetRegionFromZone zone in
  let provisioned_iops :=
    if String.eqb disk_type PD_EXTREME then gcp_provisioned_iops FLAGS
    else None in
  table ← get;
  disk_metadata ← lift (table_get table (DiskSpec.disk_type disk_spec));
  metadata ←
    (if truthy_list replica_zones then
       modify (insert (DiskSpec.disk_type disk_spec)
                 (<[disk.REPLICATION := disk.REGION]> disk_metadata));;
       mret (<["replica_zones" := py_of_list replica_zones]> metadata)
     else mret metadata);
  table ← get;
  template ← lift (table_get table (DiskSpec.disk_type disk_spec));
  let metadata := (PyStr <$> template) ∪ metadata in
  let metadata :=
    if String.eqb disk_type disk.LOCAL
    then <["interface" := PyStr (gce_ssd_interface FLAGS)]> metadata
    else metadata in
  let metadata :=
    if truthy_int provisioned_iops && String.eqb disk_type PD_EXTREME
    then <["provisioned_iops" := py_of_int provisioned_iops]> metadata
    else metadata in
  mret {| disk_size := disk_size;
          disk_type := disk_type;
          metadata := metadata;
          attached_vm_name := None;
          image := image;
          image_project := image_project;
          name := name;
          zone := zone;
          project := project;
          replica_zones := replica_zones;
          region := region;
          provisioned_iops := provisioned_iops |}.

(** *** [_Create] *)

(** The command [_Create] builds before issuing it (lines 105 to 119);
    [labels] is the value of [util.MakeFormattedDefaultTags()]. *)
Definition _Create_command (self : GceDisk) (labels : string)
  : result util.Command :=
  let cmd := GcloudCommand self
               [PyStr "compute"; PyStr "disks"; PyStr "create";
                PyStr (name self)] in
  let cmd := util.setflag "size" (PyInt (disk_size self)) cmd in
  let cmd := util.setflag "type" (PyStr (disk_type self)) cmd in
  let cmd :=
    if truthy_int (provisioned_iops self)
       && String.eqb (disk_type self) PD_EXTREME
    then util.setflag "provisioned-iops"
           (py_of_int (provisioned_iops self)) cmd
    else cmd in
  let cmd := util.setflag "labels" (PyStr labels) cmd in
  let cmd :=
    if truthy_str (image self)
    then util.setflag "image" (py_of_str (image self)) cmd
    else cmd in
  let cmd :=
    if truthy_str (image_project self)
    then util.setflag "image-project" (py_of_str (image_project self)) cmd
    else cmd in
  if truthy_list (replica_zones self) then
    let cmd := util.setflag "region" (PyStr (region self)) cmd in
    let cmd := util.setflag "replica-zones"
                 (PyStr (join "," (default [] (replica_zones self)))) cmd in
    util.delflag "zone" cmd
  else Ok cmd.

Definition _Create : M State unit :=
  s ← get;
  cmd ← lift (_Create_command s.1 (MakeFormattedDefaultTags s.2));
  r ← issue [("raise_on_failure", false)] cmd;
  lift (CheckGcloudResponseKnownFailures (util.stderr r) (util.retcode r)).

(** *** [_Delete] *)

Definition _Delete_command (self : GceDisk) : result util.Command :=
  let cmd := GcloudCommand self
               [PyStr "compute"; PyStr "disks"; PyStr "delete";
                PyStr (name self)] in
  if truthy_list (replica_zones self) then
    let cmd := util.setflag "region" (PyStr (region self)) cmd in
    util.delflag "zone" cmd
  else Ok cmd.

Definition _Delete : M State unit :=
  s ← get;
  cmd ← lift (_Delete_command s.1);
  issue [("raise_on_failure", false)] cmd;;
  mret tt.

(** *** [_Describe], [_Ready], [_Exists] *)

Definition _Describe_command (self : GceDisk) : result util.Command :=
  let cmd := GcloudCommand self
               [PyStr "compute"; PyStr "disks"; PyStr "describe";
                PyStr (name self)] in
  if truthy_list (replica_zones self) then
    let cmd := util.setflag "region" (PyStr (region self)) cmd in
    util.delflag "zone" cmd
  else Ok cmd.

(** The [try] statement of [_Describe] (lines 141 to 145): the parsed
    value, or [None] after a [ValueError]; [except ValueError] catches
    nothing else, so any other exception of [json.loads] goes through. *)
Definition parse_describe (stdout : string) : result pyval :=
  match json_loads stdout with
  | Ok result => Ok result
  | Raise e => if is_ValueError e then Ok PyNone else Raise e
  end.

Definition _Describe : M State pyval :=
  s ← get;
  cmd ← lift (_Describe_command s.1);
  r ← issue [("suppress_warning", true); ("raise_on_failure", false)] cmd;
  lift (parse_describe (util.stdout r)).

Definition _Ready : M State bool :=
  result ← _Describe;
  status ← lift (getitem_str result "status");
  mret (eq_str status "READY").

Definition _Exists : M State bool :=
  result ← _Describe;
  mret (truthy result).

(** *** [Attach] *)

(** The command [Attach] builds (lines 165 to 171), read from the instance
    after [attached_vm_name] has been assigned. *)
Definition Attach_command (self : GceDisk) : util.Command :=
  let cmd := GcloudCommand self
               [PyStr "compute"; PyStr "instances"; PyStr "attach-disk";
                py_of_str (attached_vm_name self)] in
  let cmd := util.setflag "device-name" (PyStr (name self)) cmd in
  let cmd := util.setflag "disk" (PyStr (name self)) cmd in
  if truthy_list (replica_zones self)
  then util.setflag "disk-scope" (PyStr REGIONAL_DISK_SCOPE) cmd
  else cmd.

(** The text of the exception [Attach] raises. *)
Definition Attach_failure (cmd : util.Command) (r : util.Issued) : string :=
  let debug_text :=
    "Ran: {" +:+ join " " (GetCommand cmd) +:+ "}" +:+ LF +:+
    "ReturnCode:" +:+ pretty (util.retcode r) +:+ LF +:+
    "STDOUT: " +:+ util.stdout r +:+ LF +:+
    "STDERR: " +:+ util.stderr r in
  "Command returned a non-zero exit code:" +:+ LF +:+ debug_text.

(** One invocation of the function [Attach]; the decorator [vm_util.Retry]
    re-invokes it, see [Retry] below. *)
Definition Attach (vm : VM.t) : M State unit :=
  modify (fun s => (set_attached_vm_name (Some (VM.name vm)) s.1, s.2));;
  s ← get;
  let cmd := Attach_command s.1 in
  r ← issue [("raise_on_failure", false)] cmd;
  let cmd := util.set_rate_limited (util.was_rate_limited r) cmd in
  if negb (util.retcode r =? 0) then
    if util.rate_limited cmd
       && str_in "is already being used" (util.stderr r)
       && retry_on_rate_limited FLAGS
    then mret tt
    else mthrow (CalledProcessException (Attach_failure cmd r))
  else mret tt.

(** Modelled from the spec: the decorator [vm_util.Retry()], which is not
    part of the sources at hand: an "outer bounded-retry decorator" that
    "may re-invoke the whole operation". The operation is invoked once and
    then again, up to [max_retries] more times, as long as it raises; the
    outcome of the last invocation is the outcome of the call. *)
Fixpoint Retry {S A} (max_retries : nat) (f : M S A) : M S A :=
  fun s =>
    match f s with
    | (Ok a, s') => (Ok a, s')
    | (Raise e, s') =>
        match max_retries with
        | O => (Raise e, s')
        | Datatypes.S n => Retry n f s'
        end
    end.

(** *** [Detach] *)

Definition Detach_command (self : GceDisk) : util.Command :=
  let cmd := GcloudCommand self
               [PyStr "compute"; PyStr "instances"; PyStr "detach-disk";
                py_of_str (attached_vm_name self)] in
  let cmd := util.setflag "device-name" (PyStr (name self)) cmd in
  if truthy_list (replica_zones self)
  then util.setflag "disk-scope" (PyStr REGIONAL_DISK_SCOPE) cmd
  else cmd.

Definition Detach : M State unit :=
  s ← get;
  let cmd := Detach_command s.1 in
  issue_retryable cmd;;
  modify (fun s => (set_attached_vm_name None s.1, s.2)).

(** *** [GetDevicePath] *)

Definition GetDevicePath (self : GceDisk) : string :=
  if String.eqb (disk_type self) disk.LOCAL
     && String.eqb (gce_ssd_interface FLAGS) NVME
  then "/dev/" +:+ name self
  else "/dev/disk/by-id/google-" +:+ name self.

End GceDisk.

(** ** Sequences of life-cycle calls *)

(** The calls an owner makes on one instance. *)
Inductive Op : Type :=
| OpCreate
| OpDelete
| OpDescribe
| OpReady
| OpExists
| OpAttach (vm : VM.t)
| OpDetach.

Section Lifecycle.

Context `{Collaborators}.

(** One call, its return value dropped. *)
Definition call (op : Op) : M State unit :=
  match op with
  | OpCreate => _Create
  | OpDelete => _Delete
  | OpDescribe => _Describe;; mret tt
  | OpReady => _Ready;; mret tt
  | OpExists => _Exists;; mret tt
  | OpAttach vm => Attach vm
  | OpDetach => Detach
  end.

(** The calls of a list, one after the other on the same instance. An owner
    may catch what a call raises and go on: the outcome of every call is
    recorded and the next call starts from the state the previous one
    left. *)
Fixpoint lifecycle (ops : list Op) (s : State)
  : list (Op * result unit) * State :=
  match ops with
  | [] => ([], s)
  | op :: rest =>
      let (r, s') := run (call op) s in
      let (log, s'') := lifecycle rest s' in
      ((op, r) :: log, s'')
  end.

End Lifecycle.

(** What the outcome of one call means for the name of the attached VM:
    any call of [Attach] records its target, a [Detach] that returns clears
    it, and nothing else touches it. *)
Definition tracked_vm (prev : option string) (entry : Op * result unit)
  : option string :=
  match entry with
  | (OpAttach vm, _) => Some (VM.name vm)
  | (OpDetach, Ok _) => None
  | _ => prev
  end.

(** ** Sequences of constructor calls *)

(** The arguments of one call of the constructor. *)
Record ConstructorCall : Type := {
  call_spec : DiskSpec.t;
  call_name : string;
  call_zone : string;
  call_project : string;
  call_image : option string;
  call_image_project : option string;
  call_replica_zones : option (list string);
}.

Section Constructions.

Context `{Collaborators}.

Definition construct_call (c : ConstructorCall)
  : M (gmap string (gmap string string)) GceDisk :=
  __init__ (call_spec c) (call_name c) (call_zone c) (call_project c)
    (call_image c) (call_image_project c) (call_replica_zones c).

(** The constructor calls of a list, one after the other in one process:
    each call runs on the table the previous ones left, whether they
    returned or raised. *)
Fixpoint constructions (calls : list ConstructorCall)
    (table : gmap string (gmap string string))
  : list (result GceDisk) * gmap string (gmap string string) :=
  match calls with
  | [] => ([], table)
  | c :: rest =>
      let (r, table') := run (construct_call c) table in
      let (rs, table'') := constructions rest table' in
      (r :: rs, table'')
  end.

End Constructions.

(** Whether one of the calls builds a disk of the given type with replica
    zones. *)
Definition replicated_in (ty : string) (calls : list ConstructorCall) : bool :=
  existsb (fun c => String.eqb (DiskSpec.disk_type (call_spec c)) ty
                    && truthy_list (call_replica_zones c)) calls.

(** ** A scripted control plane *)

(** A stand-in for the collaborators, used to run the scenarios of the
    specification: the world is the list of answers the [gcloud] tool is
    going to give, one per issued command. *)
Module Scripted.

(** The double quote. *)
Definition DQ : string := String (ascii_of_nat 34) EmptyString.

(** A describe answer with the given status. *)
Definition status_document (status : string) : string :=
  "{" +:+ DQ +:+ "status" +:+ DQ +:+ ": " +:+ DQ +:+ status +:+ DQ +:+ "}".

(** The documents the stand-in for [json.loads] knows, with the value
    Python gives for each. *)
Definition documents : list (string * pyval) :=
  [ ("null", PyNone);
    ("true", PyBool true);
    ("false", PyBool false);
    ("0", PyInt 0);
    ("[]", PyList []);
    ("{}", PyDict []);
    (status_document "READY", PyDict [("status", PyStr "READY")]);
    (status_document "CREATING", PyDict [("status", PyStr "CREATING")]);
    (status_document "ready", PyDict [("status", PyStr "ready")]);
    (status_document " READY", PyDict [("status", PyStr " READY")]) ].

(** The number of brackets a text opens with. *)
Fixpoint opening_brackets (s : string) : nat :=
  match s with
  | String c rest =>
      if Ascii.eqb c "[" then S (opening_brackets rest) else O
  | EmptyString => O
  end.

Fixpoint brackets (n : nat) : string :=
  match n with
  | O => EmptyString
  | S n => String "[" (brackets n)
  end.

(** A thousand lists opened one inside the other, and none closed. *)
Definition deeply_nested : string := brackets 1000.

(** The stand-in for [json.loads]. It agrees with Python on the documents
    above; on a text that opens with a thousand brackets or more it raises
    the [RecursionError] CPython raises under its default recursion limit;
    every other text it rejects with a [ValueError], which is right for the
    texts the scenarios use (error messages of the tool, the empty
    output). *)
Definition loads (s : string) : result pyval :=
  match dict_get s documents with
  | Some v => Ok v
  | None =>
      if Nat.leb 1000 (opening_brackets s)
      then Raise (RecursionError
                    "maximum recursion depth exceeded while decoding a JSON array from a unicode string")
      else Raise (ValueError "Expecting value: line 1 column 1 (char 0)")
  end.

(** The next scripted answer; a tool with nothing left to say exits 0 with
    empty output. *)
Definition next_answer (kwargs : list (string * bool)) (cmd : util.Command)
    (w : list util.Issued) : util.Issued * list util.Issued :=
  match w with
  | r :: rest => (r, rest)
  | [] => ({| util.stdout := ""; util.stderr := ""; util.retcode := 0;
              util.was_rate_limited := false |}, [])
  end.

(** The retrying issue gives up on the first answer that is a failure. *)
Definition retryable (cmd : util.Command) (w : list util.Issued)
  : result (string * string) * list util.Issued :=
  let (r, rest) := next_answer [] cmd w in
  if util.retcode r =? 0 then (Ok (util.stdout r, util.stderr r), rest)
  else (Raise (CalledProcessException (util.stderr r)), rest).

Definition word (v : pyval) : string :=
  match v with
  | PyStr s => s
  | _ => "None"
  end.

(** The command line, reduced to the tool and the positional arguments. *)
Definition command_words (cmd : util.Command) : list string :=
  "gcloud" :: (word <$> util.args cmd).

Definition known_failures (stderr : string) (retcode : Z) : result unit :=
  if retcode =? 0 then Ok tt
  else Raise (CollaboratorError "CheckGcloudResponseKnownFailures").

(** The collaborators of the scenarios under the given flags. The command
    builder sets the zone flag from the resource, as the specification has
    it. *)
Definition env (flags : Flags) : Collaborators :=
  {| FLAGS := flags;
     World := list util.Issued;
     common_flags := fun resource => {[ "zone" := PyStr (zone resource) ]};
     Issue := next_answer;
     IssueRetryable := retryable;
     GetCommand := command_words;
     MakeFormattedDefaultTags := fun _ => "owner=perfkit";
     CheckGcloudResponseKnownFailures := known_failures;
     json_loads := loads;
     BaseDisk_metadata := fun _ => ∅ |}.

(** The same collaborators with a command builder that sets no zone flag,
    as for a resource that has no zone. *)
Definition env_without_zone (flags : Flags) : Collaborators :=
  {| FLAGS := flags;
     World := list util.Issued;
     common_flags := fun _ => ∅;
     Issue := next_answer;
     IssueRetryable := retryable;
     GetCommand := command_words;
     MakeFormattedDefaultTags := fun _ => "owner=perfkit";
     CheckGcloudResponseKnownFailures := known_failures;
     json_loads := loads;
     BaseDisk_metadata := fun _ => ∅ |}.

(** Default flag values: 100000 IOPS, the SCSI interface, the rate-limit
    switch on. *)
Definition flags : Flags :=
  {| gcp_provisioned_iops := Some 100000;
     gce_ssd_interface := SCSI;
     retry_on_rate_limited := true |}.

(** The default flags with another IOPS value. *)
Definition flags_with_iops (iops : option Z) : Flags :=
  {| gcp_provisioned_iops := iops;
     gce_ssd_interface := SCSI;
     retry_on_rate_limited := true |}.

(** An answer of the tool. *)
Definition answer (stdout stderr : string) (retcode : Z) (limited : bool)
  : util.Issued :=
  {| util.stdout := stdout; util.stderr := stderr; util.retcode := retcode;
     util.was_rate_limited := limited |}.

(** The instance a constructor call gives on a freshly imported module, if
    it gives one. *)
Definition construct (fl : Flags) (disk_type : string) (size : Z)
    (name zone : string) (replica_zones : option (list string))
  : result GceDisk :=
  (run (@__init__ (env fl)
          {| DiskSpec.disk_type := disk_type; DiskSpec.disk_size := size |}
          name zone "project" None None replica_zones)
       DISK_METADATA).1.

(** The disk of scenario A: zonal, standard, named [d1]. *)
Definition zonal_disk : GceDisk :=
  {| disk_size := 500;
     disk_type := PD_STANDARD;
     metadata := {[ "media" := PyStr "hdd"; "replication" := PyStr "zone" ]};
     attached_vm_name := None;
     image := None;
     image_project := None;
     name := "d1";
     zone := "us-central1-a";
     project := "project";
     replica_zones := None;
     region := "us-central1";
     provisioned_iops := None |}.

(** The disk of scenario C: replicated over two zones. *)
Definition regional_disk : GceDisk :=
  {| disk_size := 500;
     disk_type := PD_SSD;
     metadata :=
       {[ "media" := PyStr "ssd"; "replication" := PyStr "region";
          "replica_zones" := PyList [PyStr "zone-a"; PyStr "zone-b"] ]};
     attached_vm_name := None;
     image := None;
     image_project := None;
     name := "d2";
     zone := "us-central1-a";
     project := "project";
     replica_zones := Some ["zone-a"; "zone-b"];
     region := "us-central1";
     provisioned_iops := None |}.

Definition vm1 : VM.t := {| VM.name := "vm-1" |}.

(** A zonal [pd-ssd] disk named [d1] whose metadata reports the given
    replication. *)
Definition ssd_disk (replication : string) : GceDisk :=
  {| disk_size := 500;
     disk_type := PD_SSD;
     metadata :=
       {[ "media" := PyStr "ssd"; "replication" := PyStr replication ]};
     attached_vm_name := None;
     image := None;
     image_project := None;
     name := "d1";
     zone := "us-central1-a";
     project := "project";
     replica_zones := None;
     region := "us-central1";
     provisioned_iops := None |}.

End Scripted.

(** * Properties *)

(** ** Strings *)

Lemma prefix_append (p s : string) :
  String.prefix p s = true <-> exists post, s = p +:+ post.
Proof.
  revert s. induction p as [|a p IH]; intros s.
  - split; [intros _; exists s; reflexivity | now destruct s].
  - destruct s as [|b s]; simpl.
    + split; [discriminate | intros [post Hpost]; discriminate].
    + destruct (ascii_dec a b) as [->|Hne].
      * rewrite IH. split; intros [post Hpost]; exists post.
        -- simpl. now rewrite Hpost.
        -- simpl in Hpost. now injection Hpost.
      * split; [discriminate|]. intros [post Hpost].
        simpl in Hpost. injection Hpost as Hab _. congruence.
Qed.

(** [str_in] is Python's substring test: the needle occurs somewhere in the
    text. *)
Lemma str_in_occurs (needle hay : string) :
  str_in needle hay = true <->
  exists pre post, hay = pre +:+ needle +:+ post.
Proof.
  induction hay as [|c rest IH]; cbn [str_in].
  - destruct (String.prefix needle "") eqn:Hp.
    + apply prefix_append in Hp as [post Hpost].
      split; [intros _; exists "", post; exact Hpost | reflexivity].
    + split; [discriminate|]. intros (pre & post & Heq).
      destruct pre; [|discriminate]. simpl in Heq.
      assert (String.prefix needle "" = true) by (apply prefix_append; eauto).
      congruence.
  - destruct (String.prefix needle (String c rest)) eqn:Hp.
    + apply prefix_append in Hp as [post Hpost].
      split; [intros _; exists "", post; exact Hpost | reflexivity].
    + rewrite IH. split.
      * intros (pre & post & ->). exists (String c pre), post. reflexivity.
      * intros (pre & post & Heq). destruct pre as [|c' pre].
        -- simpl in Heq.
           assert (String.prefix needle (String c rest) = true)
             by (apply prefix_append; eauto).
           congruence.
        -- simpl in Heq. injection Heq as _ ->. eauto.
Qed.

Lemma no_dash_last_dash (s : string) :
  str_in "-" s = false -> util.last_dash s = None.
Proof.
  induction s as [|c rest IH]; [reflexivity|].
  cbn [str_in String.prefix util.last_dash].
  destruct (ascii_dec "-" c) as [<-|Hne].
  - destruct rest; discriminate.
  - intros Hrest. rewrite (IH Hrest).
    destruct (Ascii.eqb_spec c "-"); congruence.
Qed.

Lemma last_dash_append (r s : string) :
  util.last_dash s = None ->
  util.last_dash (r +:+ "-" +:+ s) = Some (String.length r).
Proof.
  intros Hs. induction r as [|c r IH].
  - change (util.last_dash (String "-" s) = Some O).
    cbn [util.last_dash]. now rewrite Hs.
  - change (util.last_dash (String c (r +:+ "-" +:+ s))
            = Some (S (String.length r))).
    cbn [util.last_dash]. now rewrite IH.
Qed.

Lemma substring_append (r s : string) :
  String.substring 0 (String.length r) (r +:+ s) = r.
Proof.
  induction r as [|c r IH]; simpl.
  - now destruct s.
  - now rewrite IH.
Qed.

(** The region of a zone [<region>-<suffix>] is [<region>]. *)
Lemma GetRegionFromZone_strips (r suffix : string) :
  str_in "-" suffix = false ->
  util.GetRegionFromZone (r +:+ "-" +:+ suffix) = r.
Proof.
  intros Hs. unfold util.GetRegionFromZone.
  rewrite last_dash_append by now apply no_dash_last_dash.
  apply substring_append.
Qed.

Lemma GetRegionFromZone_us_central1_a :
  util.GetRegionFromZone "us-central1-a" = "us-central1".
Proof. reflexivity. Qed.

(** The two disks of the scenarios are what the constructor builds. *)
Lemma construct_zonal_disk :
  Scripted.construct Scripted.flags PD_STANDARD 500 "d1" "us-central1-a" None
  = Ok Scripted.zonal_disk.
Proof. vm_compute. reflexivity. Qed.

Lemma construct_regional_disk :
  Scripted.construct Scripted.flags PD_SSD 500 "d2" "us-central1-a"
    (Some ["zone-a"; "zone-b"])
  = Ok Scripted.regional_disk.
Proof. vm_compute. reflexivity. Qed.

(** ** The methods, one call at a time *)

Section Calls.

Context `{Collaborators}.

Local Abbreviation no_raise := [("raise_on_failure", false)].
Local Abbreviation quiet_no_raise :=
  [("suppress_warning", true); ("raise_on_failure", false)].

(** What a call of [Attach] answers once the tool has answered [r] to the
    command [cmd]. *)
Lemma run_Attach (vm : VM.t) (d : GceDisk) (w : World) :
  run (Attach vm) (d, w) =
  let d' := set_attached_vm_name (Some (VM.name vm)) d in
  let cmd := Attach_command d' in
  let r := (Issue no_raise cmd w).1 in
  let cmd' := util.set_rate_limited (util.was_rate_limited r) cmd in
  ((if negb (util.retcode r =? 0) then
      if util.was_rate_limited r
         && str_in "is already being used" (util.stderr r)
         && retry_on_rate_limited FLAGS
      then Ok tt
      else Raise (CalledProcessException (Attach_failure cmd' r))
    else Ok tt),
   (d', (Issue no_raise cmd w).2)).
Proof.
  unfold Attach, run, mbind, M_bind, modify, get, issue, mret, M_ret,
    mthrow, M_throw.
  cbn [fst snd].
  destruct (Issue no_raise _ w) as [r w'] eqn:HI. cbn [fst snd].
  destruct (negb (util.retcode r =? 0)); [|reflexivity].
  cbn [util.rate_limited util.set_rate_limited].
  destruct (util.was_rate_limited r && _ && _); reflexivity.
Qed.

Lemma Attach_records_target (vm : VM.t) (s : State) :
  attached_vm_name (run (Attach vm) s).2.1 = Some (VM.name vm).
Proof. destruct s as [d w]. rewrite run_Attach. reflexivity. Qed.

(** Under the retry decorator the last invocation decides, and every
    invocation records the target first. *)
Lemma Retry_Attach_records_target (n : nat) (vm : VM.t) (s : State) :
  attached_vm_name (run (Retry n (Attach vm)) s).2.1 = Some (VM.name vm).
Proof.
  revert s. induction n as [|n IH]; intros s.
  - pose proof (Attach_records_target vm s) as Hs.
    unfold run in *. cbn [Retry].
    destruct (Attach vm s) as [[a|e] s']; exact Hs.
  - pose proof (Attach_records_target vm s) as Hs.
    unfold run in *. cbn [Retry].
    destruct (Attach vm s) as [[a|e] s']; [exact Hs | apply IH].
Qed.

Lemma run_Detach (d : GceDisk) (w : World) :
  run Detach (d, w) =
  match IssueRetryable (Detach_command d) w with
  | (Ok _, w') => (Ok tt, (set_attached_vm_name None d, w'))
  | (Raise e, w') => (Raise e, (d, w'))
  end.
Proof.
  unfold Detach, run, mbind, M_bind, modify, get, issue_retryable.
  cbn [fst snd].
  destruct (IssueRetryable _ w) as [[out|e] w']; reflexivity.
Qed.

(** *** Attach *)

(** C1. A call of [Attach] records [vm.name] in [attached_vm_name] before it
    builds and issues the command (the command names the VM it reads back
    from that attribute), and the attribute keeps that value in every
    outcome, also under the retry decorator. The call returns when the exit
    code is 0; it returns as well when the exit code is not 0, the command
    was rate limited, the error output contains "is already being used" and
    the retry-on-rate-limited flag is on; in every other case it raises a
    [CalledProcessException] whose text holds the command line, the exit
    code, the standard output and the error output. *)
Theorem Attach_outcomes (vm : VM.t) (d : GceDisk) (w : World) :
  let d' := set_attached_vm_name (Some (VM.name vm)) d in
  let cmd := Attach_command d' in
  let r := (Issue no_raise cmd w).1 in
  let out := run (Attach vm) (d, w) in
  util.args cmd = [PyStr "compute"; PyStr "instances"; PyStr "attach-disk";
                   PyStr (VM.name vm)] /\
  out.2 = (d', (Issue no_raise cmd w).2) /\
  attached_vm_name out.2.1 = Some (VM.name vm) /\
  (forall n,
     attached_vm_name (run (Retry n (Attach vm)) (d, w)).2.1
     = Some (VM.name vm)) /\
  (util.retcode r = 0 -> out.1 = Ok tt) /\
  (util.retcode r <> 0 ->
   util.was_rate_limited r = true ->
   (exists pre post,
      util.stderr r = pre +:+ "is already being used" +:+ post) ->
   retry_on_rate_limited FLAGS = true ->
   out.1 = Ok tt) /\
  (util.retcode r <> 0 ->
   ~ (util.was_rate_limited r = true /\
      (exists pre post,
         util.stderr r = pre +:+ "is already being used" +:+ post) /\
      retry_on_rate_limited FLAGS = true) ->
   out.1 =
   Raise (CalledProcessException
            ("Command returned a non-zero exit code:" +:+ LF +:+
             "Ran: {" +:+
             join " " (GetCommand
                         (util.set_rate_limited (util.was_rate_limited r) cmd))
             +:+ "}" +:+ LF +:+
             "ReturnCode:" +:+ pretty (util.retcode r) +:+ LF +:+
             "STDOUT: " +:+ util.stdout r +:+ LF +:+
             "STDERR: " +:+ util.stderr r))).
Proof.
  intros d' cmd r out. subst out. rewrite run_Attach. cbv zeta.
  fold d' cmd r. cbn [fst snd].
  split.
  { subst cmd d'. unfold Attach_command.
    destruct (truthy_list _); reflexivity. }
  split; [reflexivity|]. split; [reflexivity|].
  split; [intros n; apply Retry_Attach_records_target|].
  split; [|split].
  - intros ->. reflexivity.
  - intros Hrc Hlim Hsub Hflag.
    apply str_in_occurs in Hsub. rewrite Hlim, Hsub, Hflag.
    now destruct (negb (util.retcode r =? 0)).
  - intros Hrc Hnot.
    apply Z.eqb_neq in Hrc. rewrite Hrc. cbn [negb].
    destruct (util.was_rate_limited r) eqn:Hlim;
      destruct (str_in "is already being used" (util.stderr r)) eqn:Hsub;
      destruct (retry_on_rate_limited FLAGS) eqn:Hflag;
      cbn [andb]; try reflexivity.
    exfalso. apply Hnot. apply str_in_occurs in Hsub. auto.
Qed.

(** *** Detach *)

(** C5. [Detach] assigns [None] to [attached_vm_name] after
    [IssueRetryable] has returned, and only then: when the retrying issue
    raises, the exception goes through and the instance is as it was; when
    it returns, the attribute is [None]. *)
Theorem Detach_clears_only_on_return (d : GceDisk) (w : World) :
  let issued := IssueRetryable (Detach_command d) w in
  (forall e, issued.1 = Raise e ->
     run Detach (d, w) = (Raise e, (d, issued.2))) /\
  (forall o, issued.1 = Ok o ->
     run Detach (d, w) = (Ok tt, (set_attached_vm_name None d, issued.2)) /\
     attached_vm_name (run Detach (d, w)).2.1 = None).
Proof.
  intros issued. subst issued. rewrite run_Detach.
  destruct (IssueRetryable (Detach_command d) w) as [[o|e] w'];
    cbn [fst snd]; split.
  - intros e' [=].
  - intros o' _. split; reflexivity.
  - intros e' [= ->]. reflexivity.
  - intros o' [=].
Qed.

End Calls.

(** Scenarios D and E, the plain success and a failure that is not the
    rate-limit race, run on the scripted control plane. *)
Lemma Attach_outcomes_scenarios :
  let env := Scripted.env Scripted.flags in
  let attach answer :=
    run (@Attach env Scripted.vm1) (Scripted.zonal_disk, [answer]) in
  (attach (Scripted.answer "" "" 0 false)).1 = Ok tt /\
  (attach (Scripted.answer "" "The disk is already being used by vm-1" 1 true)).1
  = Ok tt /\
  (attach (Scripted.answer "" "The disk is already being used by vm-1" 1 false)).1
  = Raise (CalledProcessException
             ("Command returned a non-zero exit code:" +:+ LF +:+
              "Ran: {gcloud compute instances attach-disk vm-1}" +:+ LF +:+
              "ReturnCode:1" +:+ LF +:+
              "STDOUT: " +:+ LF +:+
              "STDERR: The disk is already being used by vm-1")).
Proof.
  intros env attach. subst attach. cbv beta.
  split; [|split].
  - refine (proj1 (proj2 (proj2 (proj2 (proj2
      (@Attach_outcomes env Scripted.vm1 Scripted.zonal_disk
         [Scripted.answer "" "" 0 false]))))) _).
    reflexivity.
  - refine (proj1 (proj2 (proj2 (proj2 (proj2 (proj2
      (@Attach_outcomes env Scripted.vm1 Scripted.zonal_disk
         [Scripted.answer "" "The disk is already being used by vm-1"
            1 true])))))) _ _ _ _).
    + vm_compute. discriminate.
    + reflexivity.
    + exists "The disk ", " by vm-1". reflexivity.
    + reflexivity.
  - refine (proj2 (proj2 (proj2 (proj2 (proj2 (proj2
      (@Attach_outcomes env Scripted.vm1 Scripted.zonal_disk
         [Scripted.answer "" "The disk is already being used by vm-1"
            1 false])))))) _ _).
    + vm_compute. discriminate.
    + intros (Hlim & _). vm_compute in Hlim. discriminate.
Defined.

(** A detach that fails leaves the name of the VM in place, one that
    succeeds clears it. *)
Lemma Detach_clears_only_on_return_scenarios :
  let env := Scripted.env Scripted.flags in
  let attached := set_attached_vm_name (Some "vm-1") Scripted.zonal_disk in
  attached_vm_name
    (run (@Detach env) (attached, [Scripted.answer "" "busy" 1 false])).2.1
  = Some "vm-1" /\
  attached_vm_name
    (run (@Detach env) (attached, [Scripted.answer "" "" 0 false])).2.1
  = None.
Proof.
  intros env attached. split.
  - exact (f_equal (fun out : result unit * State => attached_vm_name out.2.1)
             (proj1 (@Detach_clears_only_on_return env attached
                       [Scripted.answer "" "busy" 1 false])
                (CalledProcessException "busy") eq_refl)).
  - apply (proj2 (@Detach_clears_only_on_return env attached
                    [Scripted.answer "" "" 0 false]) ("", "")).
    reflexivity.
Defined.

(** ** Describe, Ready, Exists *)

Lemma eq_str_true (v : pyval) (s : string) :
  eq_str v s = true <-> v = PyStr s.
Proof.
  destruct v; simpl; try (split; [discriminate | intros [=]]).
  rewrite String.eqb_eq. split; [now intros -> | now intros [= ->]].
Qed.

Section Describe.

Context `{Collaborators}.

Local Abbreviation quiet_no_raise :=
  [("suppress_warning", true); ("raise_on_failure", false)].

Lemma run_Describe (d : GceDisk) (w : World) :
  run _Describe (d, w) =
  match _Describe_command d with
  | Ok cmd =>
      (parse_describe (util.stdout (Issue quiet_no_raise cmd w).1),
       (d, (Issue quiet_no_raise cmd w).2))
  | Raise e => (Raise e, (d, w))
  end.
Proof.
  unfold _Describe, run, mbind, M_bind, get, lift, issue.
  cbn [fst snd].
  destruct (_Describe_command d) as [cmd|e]; [|reflexivity].
  destruct (Issue quiet_no_raise cmd w) as [r w']. cbn [fst snd].
  destruct (parse_describe (util.stdout r)); reflexivity.
Qed.

Lemma run_Ready (s : State) :
  run _Ready s =
  match run _Describe s with
  | (Ok described, s') =>
      match getitem_str described "status" with
      | Ok status => (Ok (eq_str status "READY"), s')
      | Raise e => (Raise e, s')
      end
  | (Raise e, s') => (Raise e, s')
  end.
Proof.
  unfold _Ready, run, mbind, M_bind, lift, mret, M_ret.
  destruct (_Describe s) as [[described|e] s']; [|reflexivity].
  destruct (getitem_str described "status"); reflexivity.
Qed.

Lemma run_Exists (s : State) :
  run _Exists s =
  match run _Describe s with
  | (Ok described, s') => (Ok (truthy described), s')
  | (Raise e, s') => (Raise e, s')
  end.
Proof.
  unfold _Exists, run, mbind, M_bind, mret, M_ret.
  destruct (_Describe s) as [[described|e] s']; reflexivity.
Qed.

(** A zonal disk always gets its describe command; a regional one gets it
    when the command builder has set a zone flag to delete. *)
Lemma Describe_command_built (d : GceDisk) :
  truthy_list (replica_zones d) = false \/ is_Some (common_flags d !! "zone") ->
  exists cmd, _Describe_command d = Ok cmd.
Proof.
  unfold _Describe_command, util.delflag, util.setflag, GcloudCommand.
  cbn [util.flags util.args util.rate_limited].
  destruct (truthy_list (replica_zones d)); intros [Hz|[v Hv]];
    try discriminate; eauto.
  rewrite lookup_insert_ne by discriminate. rewrite Hv. eauto.
Qed.

(** C3. [_Ready] answers [True] exactly when the value [_Describe] returned
    is a dictionary whose item under [status] is the string [READY],
    character for character; another item gives [False]; and when
    [_Describe] returned [None] the subscript raises a [TypeError] instead
    of answering [False]. *)
Theorem Ready_iff_status_READY (d : GceDisk) (w : World) (cmd : util.Command) :
  _Describe_command d = Ok cmd ->
  let described :=
    parse_describe (util.stdout (Issue quiet_no_raise cmd w).1) in
  (run _Describe (d, w)).1 = described /\
  ((run _Ready (d, w)).1 = Ok true <->
   exists kvs, described = Ok (PyDict kvs) /\
               dict_get "status" kvs = Some (PyStr "READY")) /\
  (forall kvs status,
     described = Ok (PyDict kvs) -> dict_get "status" kvs = Some status ->
     status <> PyStr "READY" -> (run _Ready (d, w)).1 = Ok false) /\
  (described = Ok PyNone ->
   (run _Ready (d, w)).1
   = Raise (TypeError "'NoneType' object is not subscriptable")).
Proof.
  intros Hcmd described. rewrite run_Ready, run_Describe, Hcmd.
  fold described. cbn [fst snd].
  split; [reflexivity|]. split; [|split].
  - destruct described as [[| | | | |l|kvs]|e]; cbn [getitem_str fst];
      try (split; [discriminate | intros (kvs' & [=] & _)]).
    destruct (dict_get "status" kvs) as [status|] eqn:Hst; cbn [fst].
    + split.
      * intros [= Heq]. apply eq_str_true in Heq as ->. eauto.
      * intros (kvs' & [= <-] & Hst'). rewrite Hst in Hst'.
        injection Hst' as ->. reflexivity.
    + split; [discriminate|].
      intros (kvs' & [= <-] & Hst'). congruence.
  - intros kvs status -> Hst Hne. cbn [getitem_str]. rewrite Hst. cbn [fst].
    destruct (eq_str status "READY") eqn:Heq; [|reflexivity].
    apply eq_str_true in Heq. contradiction.
  - intros ->. reflexivity.
Qed.

(** What the [try] statement makes of the three ways [json.loads] ends. *)
Lemma parse_describe_cases (stdout : string) :
  (forall v, json_loads stdout = Ok v -> parse_describe stdout = Ok v) /\
  (forall msg, json_loads stdout = Raise (ValueError msg) ->
     parse_describe stdout = Ok PyNone) /\
  (forall e, json_loads stdout = Raise e -> is_ValueError e = false ->
     parse_describe stdout = Raise e) /\
  (forall e, parse_describe stdout = Raise e ->
     json_loads stdout = Raise e /\ is_ValueError e = false).
Proof.
  unfold parse_describe.
  destruct (json_loads stdout) as [v|e]; [|destruct (is_ValueError e) eqn:He].
  - split; [now intros v' [= ->]|]. split; [intros msg [=]|].
    split; intros e [=].
  - split; [intros v [=]|]. split; [reflexivity|].
    split; [intros e' [= <-] Hnot; congruence | intros e' [=]].
  - split; [intros v [=]|]. split; [intros msg [= ->]; discriminate He|].
    split; [now intros e' [= <-] _|].
    intros e' [= <-]. now split.
Qed.

(** C4, as the code has it, for every output [json.loads] parses or rejects
    with a [ValueError]. [_Describe] returns [None] when the output is not
    JSON and the parsed value otherwise, so that [None] comes back for
    unparsable output and for the document [null] alike. [_Exists] answers
    [False] for unparsable output and [True] for every non-empty dictionary
    or list, whatever the status in it. *)
Theorem Describe_and_Exists_on_stdout
    (d : GceDisk) (w : World) (cmd : util.Command) :
  _Describe_command d = Ok cmd ->
  let stdout := util.stdout (Issue quiet_no_raise cmd w).1 in
  (forall msg, json_loads stdout = Raise (ValueError msg) ->
     (run _Describe (d, w)).1 = Ok PyNone) /\
  (forall v, json_loads stdout = Ok v -> (run _Describe (d, w)).1 = Ok v) /\
  ((run _Describe (d, w)).1 = Ok PyNone <->
   (exists msg, json_loads stdout = Raise (ValueError msg)) \/
   json_loads stdout = Ok PyNone) /\
  (forall msg, json_loads stdout = Raise (ValueError msg) ->
     (run _Exists (d, w)).1 = Ok false) /\
  (forall item items,
     json_loads stdout = Ok (PyDict (item :: items)) ->
     (run _Exists (d, w)).1 = Ok true) /\
  (forall x xs,
     json_loads stdout = Ok (PyList (x :: xs)) ->
     (run _Exists (d, w)).1 = Ok true).
Proof.
  intros Hcmd stdout. rewrite run_Exists, run_Describe, Hcmd.
  fold stdout. cbn [fst snd]. unfold parse_describe.
  destruct (json_loads stdout) as [v|e]; cbn [fst].
  - split; [discriminate|]. split; [now intros v' [= ->]|].
    split; [|split; [discriminate|]].
    + split; [intros [= ->]; now right
             | intros [[msg [=]]|[= ->]]; reflexivity].
    + split; intros ? ? [= ->]; reflexivity.
  - destruct e; cbn [is_ValueError fst];
      (split; [try discriminate; reflexivity|]);
      (split; [discriminate|]);
      (split; [|split; [try discriminate; reflexivity | split; discriminate]]).
    all: split; [try discriminate; eauto | intros [[m [=]]|[=]]; reflexivity].
Qed.

(** C10. What [_Describe] returns is decided by the standard output alone:
    two runs whose describe commands print the same text return the same
    value, whatever their exit codes and error outputs; a text that parses
    is returned parsed, and [_Exists] answers with its truth value. *)
Theorem Describe_reads_stdout_only
    (d1 d2 : GceDisk) (w1 w2 : World) (cmd1 cmd2 : util.Command) :
  _Describe_command d1 = Ok cmd1 ->
  _Describe_command d2 = Ok cmd2 ->
  let r1 := (Issue quiet_no_raise cmd1 w1).1 in
  let r2 := (Issue quiet_no_raise cmd2 w2).1 in
  (util.stdout r1 = util.stdout r2 ->
   (run _Describe (d1, w1)).1 = (run _Describe (d2, w2)).1 /\
   (run _Exists (d1, w1)).1 = (run _Exists (d2, w2)).1) /\
  (forall v, json_loads (util.stdout r1) = Ok v ->
     (run _Describe (d1, w1)).1 = Ok v /\
     (run _Exists (d1, w1)).1 = Ok (truthy v)).
Proof.
  intros Hcmd1 Hcmd2 r1 r2. rewrite !run_Exists, !run_Describe, Hcmd1, Hcmd2.
  fold r1 r2. cbn [fst snd]. split.
  - intros ->. destruct (parse_describe (util.stdout r2)); split; reflexivity.
  - intros v Hv. unfold parse_describe. rewrite Hv. split; reflexivity.
Qed.

End Describe.

(** The readiness check on the scripted control plane: only the exact
    status [READY] is ready, and output that is not JSON makes the check
    raise. *)
Lemma Ready_iff_status_READY_scenarios :
  let env := Scripted.env Scripted.flags in
  let ready stdout :=
    (run (@_Ready env)
       (Scripted.zonal_disk, [Scripted.answer stdout "" 0 false])).1 in
  ready (Scripted.status_document "READY") = Ok true /\
  ready (Scripted.status_document "ready") = Ok false /\
  ready (Scripted.status_document " READY") = Ok false /\
  ready "ERROR: (gcloud.compute.disks.describe) Could not fetch resource"
  = Raise (TypeError "'NoneType' object is not subscriptable").
Proof.
  intros env ready. subst ready. cbv beta.
  split; [|split; [|split]].
  - edestruct (@Ready_iff_status_READY env Scripted.zonal_disk
                 [Scripted.answer (Scripted.status_document "READY") "" 0 false]
                 _ eq_refl) as (_ & Hiff & _).
    apply Hiff. eexists. split; reflexivity.
  - edestruct (@Ready_iff_status_READY env Scripted.zonal_disk
                 [Scripted.answer (Scripted.status_document "ready") "" 0 false]
                 _ eq_refl) as (_ & _ & Hother & _).
    eapply Hother; [reflexivity | reflexivity | discriminate].
  - edestruct (@Ready_iff_status_READY env Scripted.zonal_disk
                 [Scripted.answer (Scripted.status_document " READY") "" 0 false]
                 _ eq_refl) as (_ & _ & Hother & _).
    eapply Hother; [reflexivity | reflexivity | discriminate].
  - edestruct (@Ready_iff_status_READY env Scripted.zonal_disk
                 [Scripted.answer
                    "ERROR: (gcloud.compute.disks.describe) Could not fetch resource"
                    "" 0 false]
                 _ eq_refl) as (_ & _ & _ & Hnone).
    apply Hnone. reflexivity.
Defined.

(** C4 as stated fails on two outputs. The document [null] parses as JSON,
    and [_Describe] returns [None] all the same, because [None] is what it
    parses to. A thousand unclosed brackets do not parse as JSON, and
    [_Describe] does not return [None]: [json.loads] gives up with a
    [RecursionError], which [except ValueError] does not catch. *)
Lemma Describe_on_null_and_on_deep_nesting :
  ~ ((run (@_Describe (Scripted.env Scripted.flags))
        (Scripted.zonal_disk, [Scripted.answer "null" "" 0 false])).1
     = Ok PyNone
     <-> exists msg,
           @json_loads (Scripted.env Scripted.flags) "null"
           = Raise (ValueError msg)) /\
  (run (@_Describe (Scripted.env Scripted.flags))
     (Scripted.zonal_disk,
      [Scripted.answer Scripted.deeply_nested "" 0 false])).1
  = Raise (RecursionError
             "maximum recursion depth exceeded while decoding a JSON array from a unicode string").
Proof.
  split.
  - intros [Hnone _]. destruct (Hnone eq_refl) as [msg Hmsg].
    discriminate Hmsg.
  - vm_compute. reflexivity.
Qed.

(** Scenario F and its neighbours on the scripted control plane. *)
Lemma Describe_and_Exists_on_stdout_scenarios :
  let env := Scripted.env Scripted.flags in
  let on stdout : State :=
    (Scripted.zonal_disk, [Scripted.answer stdout "" 0 false]) in
  (run (@_Describe env) (on "ERROR: not found")).1 = Ok PyNone /\
  (run (@_Exists env) (on "ERROR: not found")).1 = Ok false /\
  (run (@_Describe env) (on "null")).1 = Ok PyNone /\
  (run (@_Exists env) (on (Scripted.status_document "CREATING"))).1 = Ok true.
Proof.
  intros env on. subst on. cbv beta.
  split; [|split; [|split]].
  - edestruct (@Describe_and_Exists_on_stdout env Scripted.zonal_disk
                 [Scripted.answer "ERROR: not found" "" 0 false] _ eq_refl)
      as (Hnone & _).
    eapply Hnone. reflexivity.
  - edestruct (@Describe_and_Exists_on_stdout env Scripted.zonal_disk
                 [Scripted.answer "ERROR: not found" "" 0 false] _ eq_refl)
      as (_ & _ & _ & Hfalse & _).
    eapply Hfalse. reflexivity.
  - edestruct (@Describe_and_Exists_on_stdout env Scripted.zonal_disk
                 [Scripted.answer "null" "" 0 false] _ eq_refl)
      as (_ & _ & Hiff & _).
    apply Hiff. right. reflexivity.
  - edestruct (@Describe_and_Exists_on_stdout env Scripted.zonal_disk
                 [Scripted.answer (Scripted.status_document "CREATING") "" 0 false]
                 _ eq_refl)
      as (_ & _ & _ & _ & Hdict & _).
    eapply Hdict. reflexivity.
Defined.

(** A describe command that exits with status 1 but prints a document: the
    document is returned and the disk is taken to exist, exactly as when the
    command exits with status 0. *)
Lemma Describe_reads_stdout_only_scenarios :
  let env := Scripted.env Scripted.flags in
  let failed : State :=
    (Scripted.zonal_disk,
     [Scripted.answer (Scripted.status_document "READY") "quota exceeded" 1 true]) in
  let succeeded : State :=
    (Scripted.zonal_disk,
     [Scripted.answer (Scripted.status_document "READY") "" 0 false]) in
  (run (@_Describe env) failed).1 = (run (@_Describe env) succeeded).1 /\
  (run (@_Describe env) failed).1 = Ok (PyDict [("status", PyStr "READY")]) /\
  (run (@_Exists env) failed).1 = Ok true.
Proof.
  intros env failed succeeded.
  destruct (@Describe_reads_stdout_only env
              Scripted.zonal_disk Scripted.zonal_disk
              failed.2 succeeded.2 _ _ eq_refl eq_refl) as (Hsame & Hparsed).
  split; [exact (proj1 (Hsame eq_refl))|].
  exact (Hparsed _ eq_refl).
Defined.

(** ** GetDevicePath *)

Lemma length_append (a b : string) :
  String.length (a +:+ b) = (String.length a + String.length b)%nat.
Proof. induction a as [|c a IH]; simpl; [reflexivity | now rewrite IH]. Qed.

(** The two path templates never give the same path for one name. *)
Lemma device_paths_differ (n : string) :
  "/dev/" +:+ n <> "/dev/disk/by-id/google-" +:+ n.
Proof.
  intros Heq. apply (f_equal String.length) in Heq.
  rewrite !length_append in Heq. simpl in Heq. lia.
Qed.

(** C7. [GetDevicePath] reads the disk type, the disk name and the
    interface flag and nothing else: two instances, under any two sets of
    collaborators, that agree on the three get the same path. The path is
    [/dev/<name>] exactly when the type is the local one and the interface
    flag is [NVME], and [/dev/disk/by-id/google-<name>] exactly when that is
    not so. *)
Theorem GetDevicePath_by_kind_and_interface
    (H1 H2 : Collaborators) (d1 d2 : GceDisk) :
  (disk_type d1 = disk_type d2 ->
   name d1 = name d2 ->
   gce_ssd_interface (@FLAGS H1) = gce_ssd_interface (@FLAGS H2) ->
   @GetDevicePath H1 d1 = @GetDevicePath H2 d2) /\
  (@GetDevicePath H1 d1 = "/dev/" +:+ name d1 <->
   disk_type d1 = disk.LOCAL /\ gce_ssd_interface (@FLAGS H1) = NVME) /\
  (@GetDevicePath H1 d1 = "/dev/disk/by-id/google-" +:+ name d1 <->
   ~ (disk_type d1 = disk.LOCAL /\ gce_ssd_interface (@FLAGS H1) = NVME)).
Proof.
  unfold GetDevicePath. split; [|split].
  - intros -> -> ->. reflexivity.
  - destruct (String.eqb_spec (disk_type d1) disk.LOCAL) as [Ht|Ht];
      destruct (String.eqb_spec (gce_ssd_interface (@FLAGS H1)) NVME) as [Hi|Hi];
      cbn [andb]; split; try tauto; intros Heq; symmetry in Heq;
      now apply device_paths_differ in Heq.
  - destruct (String.eqb_spec (disk_type d1) disk.LOCAL) as [Ht|Ht];
      destruct (String.eqb_spec (gce_ssd_interface (@FLAGS H1)) NVME) as [Hi|Hi];
      cbn [andb]; split; try tauto; intros Heq.
    now apply device_paths_differ in Heq.
Qed.

(** A local disk under both interfaces, and a persistent disk under NVME. *)
Lemma GetDevicePath_scenarios :
  let nvme := {| gcp_provisioned_iops := None; gce_ssd_interface := NVME;
                 retry_on_rate_limited := true |} in
  let local_disk :=
    {| disk_size := 375; disk_type := disk.LOCAL; metadata := ∅;
       attached_vm_name := None; image := None; image_project := None;
       name := "local-nvme-ssd-0"; zone := "us-central1-a";
       project := "project"; replica_zones := None;
       region := "us-central1"; provisioned_iops := None |} in
  @GetDevicePath (Scripted.env nvme) local_disk = "/dev/local-nvme-ssd-0" /\
  @GetDevicePath (Scripted.env Scripted.flags) local_disk
  = "/dev/disk/by-id/google-local-nvme-ssd-0" /\
  @GetDevicePath (Scripted.env nvme) Scripted.zonal_disk
  = "/dev/disk/by-id/google-d1".
Proof.
  intros nvme local_disk. split; [|split].
  - apply (proj1 (proj2 (GetDevicePath_by_kind_and_interface
                           (Scripted.env nvme) (Scripted.env nvme)
                           local_disk local_disk))).
    split; reflexivity.
  - apply (proj2 (proj2 (GetDevicePath_by_kind_and_interface
                           (Scripted.env Scripted.flags)
                           (Scripted.env Scripted.flags)
                           local_disk local_disk))).
    intros [_ Hi]. vm_compute in Hi. discriminate.
  - apply (proj2 (proj2 (GetDevicePath_by_kind_and_interface
                           (Scripted.env nvme) (Scripted.env nvme)
                           Scripted.zonal_disk Scripted.zonal_disk))).
    intros [Ht _]. vm_compute in Ht. discriminate.
Defined.

(** ** Flags of a command *)

Lemma setflag_flags (k : string) (v : pyval) (cmd : util.Command) :
  util.flags (util.setflag k v cmd) = <[k := v]> (util.flags cmd).
Proof. reflexivity. Qed.

Lemma delflag_flags (k : string) (cmd cmd' : util.Command) :
  util.delflag k cmd = Ok cmd' ->
  util.flags cmd' = delete k (util.flags cmd).
Proof.
  unfold util.delflag. destruct (util.flags cmd !! k); [|discriminate].
  now intros [= <-].
Qed.

Lemma delflag_returns (k : string) (cmd : util.Command) :
  is_Some (util.flags cmd !! k) -> exists cmd', util.delflag k cmd = Ok cmd'.
Proof.
  intros [v Hv]. unfold util.delflag. rewrite Hv. eauto.
Qed.

(** ** The constructor *)

Section Constructor.

Context `{Collaborators}.

(** What a constructor call does to the table it runs on, and the instance
    it returns. *)
Lemma run_init (spec : DiskSpec.t) (nm zn pj : string)
    (im ip : option string) (rz : option (list string))
    (table : gmap string (gmap string string)) :
  run (__init__ spec nm zn pj im ip rz) table =
  let ty := DiskSpec.disk_type spec in
  match table !! ty with
  | None => (Raise (KeyError ty), table)
  | Some template =>
      let iops :=
        if String.eqb ty PD_EXTREME then gcp_provisioned_iops FLAGS else None in
      let template' :=
        if truthy_list rz
        then <[disk.REPLICATION := disk.REGION]> template else template in
      let md :=
        if truthy_list rz
        then <["replica_zones" := py_of_list rz]> (BaseDisk_metadata spec)
        else BaseDisk_metadata spec in
      let md := (PyStr <$> template') ∪ md in
      let md :=
        if String.eqb ty disk.LOCAL
        then <["interface" := PyStr (gce_ssd_interface FLAGS)]> md else md in
      let md :=
        if truthy_int iops && String.eqb ty PD_EXTREME
        then <["provisioned_iops" := py_of_int iops]> md else md in
      (Ok {| disk_size := DiskSpec.disk_size spec;
             disk_type := ty;
             metadata := md;
             attached_vm_name := None;
             image := im;
             image_project := ip;
             name := nm;
             zone := zn;
             project := pj;
             replica_zones := rz;
             region := util.GetRegionFromZone zn;
             provisioned_iops := iops |},
       if truthy_list rz then <[ty := template']> table else table)
  end.
Proof.
  cbv zeta.
  unfold __init__, run, mbind, M_bind, get, lift, table_get, modify,
    mret, M_ret.
  destruct (table !! DiskSpec.disk_type spec) as [template|] eqn:Hty;
    [|reflexivity].
  destruct (truthy_list rz).
  - rewrite lookup_insert_eq. reflexivity.
  - rewrite Hty. reflexivity.
Qed.

(** The constructor returns an instance for every type of the table. *)
Lemma init_returns (spec : DiskSpec.t) (nm zn pj : string)
    (im ip : option string) (rz : option (list string))
    (table : gmap string (gmap string string)) :
  is_Some (table !! DiskSpec.disk_type spec) ->
  exists d, (run (__init__ spec nm zn pj im ip rz) table).1 = Ok d.
Proof.
  intros [template Hty]. rewrite run_init. cbv zeta. rewrite Hty.
  eexists. reflexivity.
Qed.

(** The attributes the constructor copies from its arguments. *)
Lemma init_attributes (spec : DiskSpec.t) (nm zn pj : string)
    (im ip : option string) (rz : option (list string))
    (table : gmap string (gmap string string)) (d : GceDisk) :
  (run (__init__ spec nm zn pj im ip rz) table).1 = Ok d ->
  disk_type d = DiskSpec.disk_type spec /\
  disk_size d = DiskSpec.disk_size spec /\
  name d = nm /\ zone d = zn /\ project d = pj /\
  image d = im /\ image_project d = ip /\
  replica_zones d = rz /\
  region d = util.GetRegionFromZone zn /\
  attached_vm_name d = None /\
  provisioned_iops d =
    (if String.eqb (DiskSpec.disk_type spec) PD_EXTREME
     then gcp_provisioned_iops FLAGS else None).
Proof.
  rewrite run_init. cbv zeta.
  destruct (table !! DiskSpec.disk_type spec); [|discriminate].
  cbn [fst]. intros [= <-]. cbn. repeat split; reflexivity.
Qed.

(** The flags of the create command, in the order the method sets them. *)
Lemma Create_command_flags (d : GceDisk) (labels : string) (cmd : util.Command) :
  _Create_command d labels = Ok cmd ->
  util.flags cmd =
  let fl := <["type" := PyStr (disk_type d)]>
              (<["size" := PyInt (disk_size d)]> (common_flags d)) in
  let fl :=
    if truthy_int (provisioned_iops d) && String.eqb (disk_type d) PD_EXTREME
    then <["provisioned-iops" := py_of_int (provisioned_iops d)]> fl else fl in
  let fl := <["labels" := PyStr labels]> fl in
  let fl :=
    if truthy_str (image d) then <["image" := py_of_str (image d)]> fl else fl in
  let fl :=
    if truthy_str (image_project d)
    then <["image-project" := py_of_str (image_project d)]> fl else fl in
  if truthy_list (replica_zones d)
  then delete "zone"
         (<["replica-zones" :=
              PyStr (join "," (default [] (replica_zones d)))]>
            (<["region" := PyStr (region d)]> fl))
  else fl.
Proof.
  unfold _Create_command. cbv zeta.
  destruct (truthy_int (provisioned_iops d) && String.eqb (disk_type d) PD_EXTREME),
    (truthy_str (image d)), (truthy_str (image_project d)),
    (truthy_list (replica_zones d));
    intros Hcmd;
    first [ apply delflag_flags in Hcmd; rewrite Hcmd
          | injection Hcmd as <- ];
    rewrite ?setflag_flags; reflexivity.
Qed.

(** C6, as the code has it. The instance has a [provisioned_iops] other
    than [None] exactly when its type is [pd-extreme] and the IOPS flag
    holds a value, whatever the value, zero and negative ones included. The
    create command carries the [provisioned-iops] flag exactly when that
    value is not zero, and then with that value. *)
Theorem provisioned_iops_follows_flag (spec : DiskSpec.t) (nm zn pj : string)
    (im ip : option string) (rz : option (list string))
    (table : gmap string (gmap string string)) (d : GceDisk) :
  (run (__init__ spec nm zn pj im ip rz) table).1 = Ok d ->
  (provisioned_iops d <> None <->
   DiskSpec.disk_type spec = PD_EXTREME /\ gcp_provisioned_iops FLAGS <> None) /\
  (forall v, provisioned_iops d = Some v -> gcp_provisioned_iops FLAGS = Some v) /\
  (forall labels cmd,
     _Create_command d labels = Ok cmd ->
     common_flags d !! "provisioned-iops" = None ->
     (util.flags cmd !! "provisioned-iops" <> None <->
      exists v, provisioned_iops d = Some v /\ v <> 0) /\
     (forall v, provisioned_iops d = Some v -> v <> 0 ->
        util.flags cmd !! "provisioned-iops" = Some (PyInt v))).
Proof.
  intros Hinit.
  destruct (init_attributes _ _ _ _ _ _ _ _ _ Hinit)
    as (Hty & _ & _ & _ & _ & _ & _ & _ & _ & _ & Hiops).
  split; [|split].
  - rewrite Hiops.
    destruct (String.eqb_spec (DiskSpec.disk_type spec) PD_EXTREME); tauto.
  - intros v. rewrite Hiops.
    destruct (String.eqb (DiskSpec.disk_type spec) PD_EXTREME);
      [tauto | discriminate].
  - intros labels cmd Hcmd Hcommon.
    assert (util.flags cmd !! "provisioned-iops" =
            if truthy_int (provisioned_iops d)
            then Some (py_of_int (provisioned_iops d)) else None) as Hflag.
    { rewrite (Create_command_flags _ _ _ Hcmd). cbv zeta.
      assert (truthy_int (provisioned_iops d)
              && String.eqb (disk_type d) PD_EXTREME
              = truthy_int (provisioned_iops d)) as ->.
      { rewrite Hty, Hiops.
        destruct (String.eqb (DiskSpec.disk_type spec) PD_EXTREME);
          [apply andb_true_r | reflexivity]. }
      destruct (truthy_int (provisioned_iops d)), (truthy_str (image d)),
        (truthy_str (image_project d)), (truthy_list (replica_zones d));
        now simplify_map_eq. }
    rewrite Hflag. split.
    + destruct (provisioned_iops d) as [v|]; cbn [truthy_int]; [|split].
      * destruct (Z.eqb_spec v 0) as [->|Hv]; cbn [negb]; split.
        -- tauto.
        -- intros (v' & [= <-] & Hne). contradiction.
        -- eauto.
        -- discriminate.
      * tauto.
      * intros (v & [=] & _).
    + intros v -> Hv. cbn [truthy_int py_of_int].
      apply Z.eqb_neq in Hv. now rewrite Hv.
Qed.

End Constructor.

(** C6 as stated fails when the IOPS flag is set to 0: a [pd-extreme] disk
    then has [provisioned_iops = 0], which is not [None] although no
    positive value is configured, and its create command has no
    [provisioned-iops] flag although the attribute is set. *)
Lemma provisioned_iops_zero_is_set :
  exists d,
    Scripted.construct (Scripted.flags_with_iops (Some 0))
      PD_EXTREME 500 "d3" "us-central1-a" None = Ok d /\
    ~ (provisioned_iops d <> None <->
       disk_type d = PD_EXTREME /\
       exists v, gcp_provisioned_iops (Scripted.flags_with_iops (Some 0)) = Some v
                 /\ 0 < v) /\
    ~ (forall cmd,
         @_Create_command (Scripted.env (Scripted.flags_with_iops (Some 0)))
           d "owner=perfkit" = Ok cmd ->
         (util.flags cmd !! "provisioned-iops" <> None <->
          provisioned_iops d <> None)).
Proof.
  eexists. split; [reflexivity|]. split.
  - intros [Hset _]. destruct Hset as (_ & v & Hv & Hpos); [discriminate|].
    injection Hv as <-. lia.
  - intros Hclaim. destruct (Hclaim _ eq_refl) as [_ Hflag].
    apply Hflag; [discriminate | reflexivity].
Qed.

(** Scenario B: with 10000 IOPS configured the create command of an extreme
    disk carries [provisioned-iops=10000]; a standard disk under the same
    flags has no [provisioned_iops] and no such flag. *)
Lemma provisioned_iops_follows_flag_scenarios :
  let env := Scripted.env (Scripted.flags_with_iops (Some 10000)) in
  let built ty :=
    (run (@__init__ env {| DiskSpec.disk_type := ty; DiskSpec.disk_size := 500 |}
            "d3" "us-central1-a" "project" None None None) DISK_METADATA).1 in
  (exists d cmd,
     built PD_EXTREME = Ok d /\ provisioned_iops d = Some 10000 /\
     @_Create_command env d "owner=perfkit" = Ok cmd /\
     util.flags cmd !! "provisioned-iops" = Some (PyInt 10000)) /\
  (exists d cmd,
     built PD_STANDARD = Ok d /\ provisioned_iops d = None /\
     @_Create_command env d "owner=perfkit" = Ok cmd /\
     util.flags cmd !! "provisioned-iops" = None).
Proof.
  intros env built. subst built. cbv beta. split.
  - edestruct (@provisioned_iops_follows_flag env
                 {| DiskSpec.disk_type := PD_EXTREME; DiskSpec.disk_size := 500 |}
                 "d3" "us-central1-a" "project" None None None DISK_METADATA
                 _ eq_refl) as (_ & _ & Hcreate).
    edestruct (Hcreate "owner=perfkit" _ eq_refl eq_refl) as [_ Hvalue].
    do 2 eexists. split; [reflexivity|]. split; [reflexivity|].
    split; [reflexivity|].
    apply (Hvalue 10000 eq_refl). discriminate.
  - do 2 eexists. split; [reflexivity|]. split; [reflexivity|].
    split; [reflexivity|].
    reflexivity.
Defined.

(** ** Zonal and regional commands *)

Section Commands.

Context `{Collaborators}.

Local Abbreviation no_raise := [("raise_on_failure", false)].

(** [_Create] and [_Delete] issue the commands built above and leave the
    instance alone. *)
Lemma run_Create (d : GceDisk) (w : World) :
  run _Create (d, w) =
  match _Create_command d (MakeFormattedDefaultTags w) with
  | Ok cmd =>
      let issued := Issue no_raise cmd w in
      (CheckGcloudResponseKnownFailures
         (util.stderr issued.1) (util.retcode issued.1),
       (d, issued.2))
  | Raise e => (Raise e, (d, w))
  end.
Proof.
  unfold _Create, run, mbind, M_bind, get, lift, issue. cbn [fst snd].
  destruct (_Create_command d (MakeFormattedDefaultTags w)) as [cmd|e];
    [|reflexivity].
  cbv zeta. destruct (Issue no_raise cmd w) as [r w']. reflexivity.
Qed.

Lemma run_Delete (d : GceDisk) (w : World) :
  run _Delete (d, w) =
  match _Delete_command d with
  | Ok cmd => (Ok tt, (d, (Issue no_raise cmd w).2))
  | Raise e => (Raise e, (d, w))
  end.
Proof.
  unfold _Delete, run, mbind, M_bind, get, lift, issue, mret, M_ret.
  cbn [fst snd].
  destruct (_Delete_command d) as [cmd|e]; [|reflexivity].
  destruct (Issue no_raise cmd w) as [r w']. reflexivity.
Qed.

(** The flags of the three commands that address the disk itself, for a
    regional disk whose command builder has set a zone flag. *)
Lemma regional_substitution (d : GceDisk) (cmd0 : util.Command) :
  is_Some (util.flags cmd0 !! "zone") ->
  exists cmd,
    util.delflag "zone" (util.setflag "region" (PyStr (region d)) cmd0) = Ok cmd /\
    util.flags cmd = delete "zone" (<["region" := PyStr (region d)]> (util.flags cmd0)).
Proof.
  intros [z Hz]. unfold util.delflag, util.setflag. cbn [util.flags].
  rewrite lookup_insert_ne by discriminate. rewrite Hz.
  eexists. split; reflexivity.
Qed.

(** C2, as the code has it. For a disk built with a non-empty list of
    replica zones, on a command builder that sets the zone flag: the create,
    delete and describe commands are built, have no zone flag and carry the
    region flag, whose value is the region of the zone; the create command
    carries the comma-joined replica zones as well. The attach-disk and
    detach-disk commands address the VM: they get the flag
    [disk-scope=regional] and keep the zone and region flags just as the
    command builder set them. *)
Theorem regional_commands (spec : DiskSpec.t) (nm zn pj : string)
    (im ip : option string) (rz : option (list string))
    (table : gmap string (gmap string string)) (d : GceDisk)
    (labels : string) (vm_name : option string) :
  (run (__init__ spec nm zn pj im ip rz) table).1 = Ok d ->
  truthy_list rz = true ->
  is_Some (common_flags d !! "zone") ->
  (exists cmd,
     _Create_command d labels = Ok cmd /\
     util.flags cmd !! "zone" = None /\
     util.flags cmd !! "region" = Some (PyStr (util.GetRegionFromZone zn)) /\
     util.flags cmd !! "replica-zones"
     = Some (PyStr (join "," (default [] rz)))) /\
  (exists cmd,
     _Delete_command d = Ok cmd /\
     util.flags cmd !! "zone" = None /\
     util.flags cmd !! "region" = Some (PyStr (util.GetRegionFromZone zn)) /\
     util.flags cmd !! "replica-zones" = common_flags d !! "replica-zones") /\
  (exists cmd,
     _Describe_command d = Ok cmd /\
     util.flags cmd !! "zone" = None /\
     util.flags cmd !! "region" = Some (PyStr (util.GetRegionFromZone zn)) /\
     util.flags cmd !! "replica-zones" = common_flags d !! "replica-zones") /\
  (let d' := set_attached_vm_name vm_name d in
   util.flags (Attach_command d') !! "zone" = common_flags d' !! "zone" /\
   util.flags (Attach_command d') !! "region" = common_flags d' !! "region" /\
   util.flags (Attach_command d') !! "disk-scope"
   = Some (PyStr REGIONAL_DISK_SCOPE)) /\
  (let d' := set_attached_vm_name vm_name d in
   util.flags (Detach_command d') !! "zone" = common_flags d' !! "zone" /\
   util.flags (Detach_command d') !! "region" = common_flags d' !! "region" /\
   util.flags (Detach_command d') !! "disk-scope"
   = Some (PyStr REGIONAL_DISK_SCOPE)).
Proof.
  intros Hinit Hrz Hzone.
  destruct (init_attributes _ _ _ _ _ _ _ _ _ Hinit)
    as (_ & _ & _ & _ & _ & _ & _ & Hreplicas & Hregion & _).
  rewrite <- Hreplicas in Hrz. rewrite <- Hregion, <- Hreplicas.
  repeat split.
  - unfold _Create_command. rewrite Hrz. cbv zeta.
    match goal with
    | |- context [util.delflag "zone" (util.setflag "replica-zones" ?v ?c)] =>
        assert (is_Some (util.flags (util.setflag "replica-zones" v c) !! "zone"))
          as [z Hz]
    end.
    { destruct (truthy_int (provisioned_iops d) && _),
        (truthy_str (image d)), (truthy_str (image_project d));
        unfold util.setflag, GcloudCommand; cbn [util.flags];
        now simplify_map_eq. }
    unfold util.delflag at 1. rewrite Hz.
    eexists. split; [reflexivity|].
    match goal with
    | |- context [util.flags ?c !! _] =>
        assert (_Create_command d labels = Ok c) as Hcmd
    end.
    { unfold _Create_command. rewrite Hrz. cbv zeta.
      unfold util.delflag at 1. rewrite Hz. reflexivity. }
    rewrite (Create_command_flags _ _ _ Hcmd). cbv zeta. rewrite Hrz.
    split; [apply lookup_delete_eq|].
    split; now simplify_map_eq.
  - unfold _Delete_command. rewrite Hrz. cbv zeta.
    destruct (regional_substitution d (GcloudCommand d
                [PyStr "compute"; PyStr "disks"; PyStr "delete"; PyStr (name d)])
                Hzone) as (cmd & -> & Hflags).
    exists cmd. rewrite Hflags. cbn [GcloudCommand util.flags].
    split; [reflexivity|]. now simplify_map_eq.
  - unfold _Describe_command. rewrite Hrz. cbv zeta.
    destruct (regional_substitution d (GcloudCommand d
                [PyStr "compute"; PyStr "disks"; PyStr "describe"; PyStr (name d)])
                Hzone) as (cmd & -> & Hflags).
    exists cmd. rewrite Hflags. cbn [GcloudCommand util.flags].
    split; [reflexivity|]. now simplify_map_eq.
  - unfold Attach_command. cbn [replica_zones set_attached_vm_name].
    rewrite Hrz. unfold util.setflag, GcloudCommand. cbn [util.flags].
    now simplify_map_eq.
  - unfold Attach_command. cbn [replica_zones set_attached_vm_name].
    rewrite Hrz. unfold util.setflag, GcloudCommand. cbn [util.flags].
    now simplify_map_eq.
  - unfold Attach_command. cbn [replica_zones set_attached_vm_name].
    rewrite Hrz. unfold util.setflag, GcloudCommand. cbn [util.flags].
    now simplify_map_eq.
  - unfold Detach_command. cbn [replica_zones set_attached_vm_name].
    rewrite Hrz. unfold util.setflag, GcloudCommand. cbn [util.flags].
    now simplify_map_eq.
  - unfold Detach_command. cbn [replica_zones set_attached_vm_name].
    rewrite Hrz. unfold util.setflag, GcloudCommand. cbn [util.flags].
    now simplify_map_eq.
  - unfold Detach_command. cbn [replica_zones set_attached_vm_name].
    rewrite Hrz. unfold util.setflag, GcloudCommand. cbn [util.flags].
    now simplify_map_eq.
Qed.

End Commands.

(** Scenario C on the scripted control plane: the create, delete and
    describe commands of the replicated disk address the region. *)
Lemma regional_commands_scenarios :
  let env := Scripted.env Scripted.flags in
  (exists cmd,
     @_Create_command env Scripted.regional_disk "owner=perfkit" = Ok cmd /\
     util.flags cmd !! "zone" = None /\
     util.flags cmd !! "region" = Some (PyStr "us-central1") /\
     util.flags cmd !! "replica-zones" = Some (PyStr "zone-a,zone-b")) /\
  (exists cmd,
     @_Delete_command env Scripted.regional_disk = Ok cmd /\
     util.flags cmd !! "zone" = None /\
     util.flags cmd !! "region" = Some (PyStr "us-central1")) /\
  util.flags (@Attach_command env
                (set_attached_vm_name (Some "vm-1") Scripted.regional_disk))
    !! "disk-scope" = Some (PyStr "regional").
Proof.
  intros env.
  destruct (@regional_commands env
              {| DiskSpec.disk_type := PD_SSD; DiskSpec.disk_size := 500 |}
              "d2" "us-central1-a" "project" None None
              (Some ["zone-a"; "zone-b"]) DISK_METADATA
              Scripted.regional_disk "owner=perfkit" (Some "vm-1")
              construct_regional_disk eq_refl
              (ex_intro _ (PyStr "us-central1-a") eq_refl))
    as (Hcreate & Hdelete & _ & Hattach & _).
  split; [exact Hcreate|]. split.
  - destruct Hdelete as (cmd & Hcmd & Hzone & Hregion & _). eauto.
  - apply Hattach.
Defined.

(** C2 as stated fails for the two commands that address the VM: the
    attach-disk and detach-disk commands of a replicated disk still carry
    the zone flag and have no region flag. *)
Lemma attach_and_detach_keep_the_zone :
  ~ (util.flags (@Attach_command (Scripted.env Scripted.flags)
                   (set_attached_vm_name (Some "vm-1") Scripted.regional_disk))
       !! "zone" = None /\
     util.flags (@Attach_command (Scripted.env Scripted.flags)
                   (set_attached_vm_name (Some "vm-1") Scripted.regional_disk))
       !! "region" = Some (PyStr "us-central1")) /\
  ~ (util.flags (@Detach_command (Scripted.env Scripted.flags)
                   (set_attached_vm_name (Some "vm-1") Scripted.regional_disk))
       !! "zone" = None /\
     util.flags (@Detach_command (Scripted.env Scripted.flags)
                   (set_attached_vm_name (Some "vm-1") Scripted.regional_disk))
       !! "region" = Some (PyStr "us-central1")).
Proof.
  split; intros [Hzone _]; vm_compute in Hzone; discriminate.
Qed.

(** ** The table shared by all instances *)

Section Sharing.

Context `{Collaborators}.

(** The table a constructor call leaves behind: a call with replica zones
    rewrites the entry of its disk type, any other call leaves the table as
    it found it. *)
Lemma init_table (spec : DiskSpec.t) (nm zn pj : string)
    (im ip : option string) (rz : option (list string))
    (table : gmap string (gmap string string)) :
  (run (__init__ spec nm zn pj im ip rz) table).2 =
  match table !! DiskSpec.disk_type spec with
  | Some template =>
      if truthy_list rz
      then <[DiskSpec.disk_type spec :=
               <[disk.REPLICATION := disk.REGION]> template]> table
      else table
  | None => table
  end.
Proof.
  rewrite run_init. cbv zeta.
  destruct (table !! DiskSpec.disk_type spec); [|reflexivity].
  destruct (truthy_list rz); reflexivity.
Qed.

Lemma init_zonal_keeps_table (spec : DiskSpec.t) (nm zn pj : string)
    (im ip : option string) (rz : option (list string))
    (table : gmap string (gmap string string)) :
  truthy_list rz = false ->
  (run (__init__ spec nm zn pj im ip rz) table).2 = table.
Proof.
  intros Hrz. rewrite init_table, Hrz.
  now destruct (table !! DiskSpec.disk_type spec).
Qed.

(** The table reaches an instance through its metadata only: built on two
    tables, an instance has the same value in every other attribute. *)
Lemma init_table_reaches_metadata_only (spec : DiskSpec.t) (nm zn pj : string)
    (im ip : option string) (rz : option (list string))
    (table1 table2 : gmap string (gmap string string)) (d1 d2 : GceDisk) :
  (run (__init__ spec nm zn pj im ip rz) table1).1 = Ok d1 ->
  (run (__init__ spec nm zn pj im ip rz) table2).1 = Ok d2 ->
  disk_type d1 = disk_type d2 /\ disk_size d1 = disk_size d2 /\
  name d1 = name d2 /\ zone d1 = zone d2 /\ project d1 = project d2 /\
  image d1 = image d2 /\ image_project d1 = image_project d2 /\
  replica_zones d1 = replica_zones d2 /\ region d1 = region d2 /\
  attached_vm_name d1 = attached_vm_name d2 /\
  provisioned_iops d1 = provisioned_iops d2.
Proof.
  intros H1 H2.
  destruct (init_attributes _ _ _ _ _ _ _ _ _ H1)
    as (-> & -> & -> & -> & -> & -> & -> & -> & -> & -> & ->).
  destruct (init_attributes _ _ _ _ _ _ _ _ _ H2)
    as (-> & -> & -> & -> & -> & -> & -> & -> & -> & -> & ->).
  repeat split; reflexivity.
Qed.

(** The leak, for any collaborators: once a disk with replica zones has
    been built, every later disk of the same type reports the replication
    [region], with or without replica zones of its own. *)
Lemma regional_then_any_reports_region (specA specB : DiskSpec.t)
    (nmA znA pjA nmB znB pjB : string) (imA ipA imB ipB : option string)
    (rzA rzB : option (list string))
    (table : gmap string (gmap string string)) :
  DiskSpec.disk_type specA = DiskSpec.disk_type specB ->
  truthy_list rzA = true ->
  is_Some (table !! DiskSpec.disk_type specA) ->
  exists dB,
    (run (__init__ specB nmB znB pjB imB ipB rzB)
       (run (__init__ specA nmA znA pjA imA ipA rzA) table).2).1 = Ok dB /\
    metadata dB !! disk.REPLICATION = Some (PyStr disk.REGION).
Proof.
  intros Hty HrzA [template Htemplate].
  rewrite init_table, Htemplate, HrzA, run_init. cbv zeta.
  rewrite <- Hty, lookup_insert_eq. cbn [fst].
  eexists. split; [reflexivity|]. cbn [metadata].
  assert (forall md : gmap string pyval,
            ((PyStr <$>
              (if truthy_list rzB
               then <[disk.REPLICATION := disk.REGION]>
                      (<[disk.REPLICATION := disk.REGION]> template)
               else <[disk.REPLICATION := disk.REGION]> template)) ∪ md)
            !! disk.REPLICATION = Some (PyStr disk.REGION)) as Hunion.
  { intros md. apply lookup_union_Some_l. rewrite lookup_fmap.
    destruct (truthy_list rzB); now rewrite lookup_insert_eq. }
  destruct (truthy_int _ && _), (String.eqb _ disk.LOCAL);
    rewrite ?lookup_insert_ne by discriminate; apply Hunion.
Qed.

End Sharing.

(** C9 fails on the code. A zonal [pd-ssd] disk built on a freshly imported
    module reports [replication = zone]; the same constructor call made
    after a replicated [pd-ssd] disk has been built reports
    [replication = region], because the first call wrote [region] into the
    [pd-ssd] entry of [DISK_METADATA] and the table is shared. *)
Theorem constructor_leaks_replication :
  let env := Scripted.env Scripted.flags in
  let ssd := {| DiskSpec.disk_type := PD_SSD; DiskSpec.disk_size := 500 |} in
  let A := @__init__ env ssd "d2" "us-central1-a" "project" None None
             (Some ["zone-a"; "zone-b"]) in
  let B := @__init__ env ssd "d1" "us-central1-a" "project" None None None in
  (run A DISK_METADATA).1 = Ok Scripted.regional_disk /\
  (run B DISK_METADATA).1 = Ok (Scripted.ssd_disk "zone") /\
  (run B (run A DISK_METADATA).2).1 = Ok (Scripted.ssd_disk "region") /\
  DISK_METADATA !! PD_SSD
  = Some {[ "media" := "ssd"; "replication" := "zone" ]} /\
  (run A DISK_METADATA).2 !! PD_SSD
  = Some {[ "media" := "ssd"; "replication" := "region" ]} /\
  metadata (Scripted.ssd_disk "zone") !! "replication" = Some (PyStr "zone") /\
  metadata (Scripted.ssd_disk "region") !! "replication"
  = Some (PyStr "region").
Proof.
  intros env ssd A B. subst A B ssd env.
  repeat split; vm_compute; reflexivity.
Qed.

(** ** The name of the attached VM over a life cycle *)

Section Tracking.

Context `{Collaborators}.

Lemma Create_keeps_instance (d : GceDisk) (w : World) :
  (run _Create (d, w)).2.1 = d.
Proof.
  rewrite run_Create.
  destruct (_Create_command d (MakeFormattedDefaultTags w)); reflexivity.
Qed.

Lemma Delete_keeps_instance (d : GceDisk) (w : World) :
  (run _Delete (d, w)).2.1 = d.
Proof. rewrite run_Delete. destruct (_Delete_command d); reflexivity. Qed.

Lemma Describe_keeps_instance (d : GceDisk) (w : World) :
  (run _Describe (d, w)).2.1 = d.
Proof. rewrite run_Describe. destruct (_Describe_command d); reflexivity. Qed.

Lemma Ready_keeps_instance (d : GceDisk) (w : World) :
  (run _Ready (d, w)).2.1 = d.
Proof.
  rewrite run_Ready. pose proof (Describe_keeps_instance d w) as Hd.
  destruct (run _Describe (d, w)) as [[described|e] s']; [|exact Hd].
  destruct (getitem_str described "status"); exact Hd.
Qed.

Lemma Exists_keeps_instance (d : GceDisk) (w : World) :
  (run _Exists (d, w)).2.1 = d.
Proof.
  rewrite run_Exists. pose proof (Describe_keeps_instance d w) as Hd.
  destruct (run _Describe (d, w)) as [[described|e] s']; exact Hd.
Qed.

(** Dropping the value a method returns changes nothing in the state. *)
Lemma dropped_value_state {A} (m : M State A) (s : State) :
  (run (m;; mret tt) s).2 = (run m s).2.
Proof.
  unfold run, mbind, M_bind, mret, M_ret.
  destruct (m s) as [[a|e] s']; reflexivity.
Qed.

(** One call: the attribute after it is what [tracked_vm] says. *)
Lemma call_tracks (op : Op) (s : State) :
  attached_vm_name (run (call op) s).2.1
  = tracked_vm (attached_vm_name s.1) (op, (run (call op) s).1).
Proof.
  destruct s as [d w]. destruct op; cbn [call tracked_vm fst snd].
  - now rewrite Create_keeps_instance.
  - now rewrite Delete_keeps_instance.
  - now rewrite dropped_value_state, Describe_keeps_instance.
  - now rewrite dropped_value_state, Ready_keeps_instance.
  - now rewrite dropped_value_state, Exists_keeps_instance.
  - apply Attach_records_target.
  - rewrite run_Detach.
    destruct (IssueRetryable (Detach_command d) w) as [[o|e] w']; reflexivity.
Qed.

Lemma lifecycle_cons (op : Op) (ops : list Op) (s : State) :
  lifecycle (op :: ops) s =
  ((op, (run (call op) s).1) :: (lifecycle ops (run (call op) s).2).1,
   (lifecycle ops (run (call op) s).2).2).
Proof.
  cbn [lifecycle]. destruct (run (call op) s) as [r s']. cbn [fst snd].
  destruct (lifecycle ops s') as [log s'']. reflexivity.
Qed.

(** C8, as the code has it. A new instance has no attached VM. Over any
    sequence of calls the attribute follows the calls alone: every call of
    [Attach] sets it to the name of its VM, whether the call returns or
    raises; a [Detach] that returns sets it to [None]; a [Detach] that
    raises and every call of [_Create], [_Delete], [_Describe], [_Ready]
    and [_Exists] leave it as it is. So it stays [None] as long as [Attach]
    has not been called. *)
Theorem attached_vm_name_tracks_calls :
  (forall spec nm zn pj im ip rz table d,
     (run (__init__ spec nm zn pj im ip rz) table).1 = Ok d ->
     attached_vm_name d = None) /\
  (forall ops s,
     (lifecycle ops s).1.*1 = ops /\
     attached_vm_name (lifecycle ops s).2.1
     = fold_left tracked_vm (lifecycle ops s).1 (attached_vm_name s.1)) /\
  (forall ops s,
     attached_vm_name s.1 = None ->
     (forall vm, OpAttach vm ∉ ops) ->
     attached_vm_name (lifecycle ops s).2.1 = None) /\
  (forall s, attached_vm_name (run _Delete s).2.1 = attached_vm_name s.1).
Proof.
  split; [|split; [|split]].
  - intros spec nm zn pj im ip rz table d Hinit.
    now destruct (init_attributes _ _ _ _ _ _ _ _ _ Hinit)
      as (_ & _ & _ & _ & _ & _ & _ & _ & _ & Hname & _).
  - induction ops as [|op ops IH]; intros s; [split; reflexivity|].
    rewrite lifecycle_cons. cbn [fst snd fold_left fmap list_fmap].
    destruct (IH (run (call op) s).2) as [Hops Hname].
    split.
    + f_equal. exact Hops.
    + rewrite Hname, call_tracks. reflexivity.
  - induction ops as [|op ops IH]; intros s Hnone Hnot; [exact Hnone|].
    rewrite lifecycle_cons. cbn [snd]. apply IH.
    + rewrite call_tracks, Hnone.
      destruct op; cbn [tracked_vm]; try reflexivity.
      * exfalso. apply (Hnot vm). left.
      * now destruct (run (call OpDetach) s).1.
    + intros vm Hin. apply (Hnot vm). now right.
  - intros [d w]. now rewrite Delete_keeps_instance.
Qed.

End Tracking.

(** A life cycle on the scripted control plane in which [Attach] is never
    called, and the deletion of a disk nobody has attached. *)
Lemma attached_vm_name_tracks_calls_scenarios :
  let env := Scripted.env Scripted.flags in
  (forall d,
     Scripted.construct Scripted.flags PD_STANDARD 500 "d1" "us-central1-a" None
     = Ok d -> attached_vm_name d = None) /\
  attached_vm_name
    (@lifecycle env [OpCreate; OpExists; OpDetach; OpDelete]
       (Scripted.zonal_disk, [])).2.1 = None /\
  attached_vm_name (run (@_Delete env) (Scripted.zonal_disk, [])).2.1 = None.
Proof.
  intros env.
  destruct (@attached_vm_name_tracks_calls env)
    as (Hnew & _ & Hquiet & Hdelete).
  split; [|split].
  - intros d Hd. exact (Hnew _ _ _ _ _ _ _ _ _ Hd).
  - apply Hquiet; [reflexivity|].
    intros vm Hin. repeat (apply elem_of_cons in Hin as [Hin|Hin];
                           [discriminate Hin|]).
    now apply elem_of_nil in Hin.
  - rewrite Hdelete. reflexivity.
Defined.

(** C8 as stated fails twice over. After an [Attach] that returned, a
    [_Delete] that returns leaves the name of the VM in place; and an
    [Attach] that raised has set the name although no attach succeeded. *)
Lemma attached_vm_name_outlives_Delete :
  (@lifecycle (Scripted.env Scripted.flags) [OpAttach Scripted.vm1; OpDelete]
     (Scripted.zonal_disk, [])).1
  = [(OpAttach Scripted.vm1, Ok tt); (OpDelete, Ok tt)] /\
  attached_vm_name
    (@lifecycle (Scripted.env Scripted.flags) [OpAttach Scripted.vm1; OpDelete]
       (Scripted.zonal_disk, [])).2.1 <> None /\
  (exists e,
     (@lifecycle (Scripted.env Scripted.flags) [OpAttach Scripted.vm1]
        (Scripted.zonal_disk, [Scripted.answer "" "no such instance" 1 false])).1
     = [(OpAttach Scripted.vm1, Raise e)]) /\
  attached_vm_name
    (@lifecycle (Scripted.env Scripted.flags) [OpAttach Scripted.vm1]
       (Scripted.zonal_disk, [Scripted.answer "" "no such instance" 1 false])).2.1
  <> None.
Proof.
  split; [vm_compute; reflexivity|].
  split; [vm_compute; discriminate|].
  split; [eexists; vm_compute; reflexivity|].
  vm_compute; discriminate.
Qed.

(** * Further properties of the module *)

(** ** Zonal disks and missing zone flags *)

Section Addressing.

Context `{Collaborators}.

Local Abbreviation no_raise := [("raise_on_failure", false)].

(** The create command is built for every zonal disk, and for a regional
    one as soon as the command builder has set a zone flag. *)
Lemma Create_command_built (d : GceDisk) (labels : string) :
  truthy_list (replica_zones d) = false \/ is_Some (common_flags d !! "zone") ->
  exists cmd, _Create_command d labels = Ok cmd.
Proof.
  intros Hbuilt. unfold _Create_command. cbv zeta.
  destruct (truthy_list (replica_zones d)); [|eauto].
  destruct Hbuilt as [|Hzone]; [discriminate|].
  apply delflag_returns.
  destruct (truthy_int (provisioned_iops d) && _), (truthy_str (image d)),
    (truthy_str (image_project d));
    rewrite ?setflag_flags; rewrite ?lookup_insert_ne by discriminate;
    exact Hzone.
Qed.

Lemma Delete_command_built (d : GceDisk) :
  truthy_list (replica_zones d) = false \/ is_Some (common_flags d !! "zone") ->
  exists cmd, _Delete_command d = Ok cmd.
Proof.
  intros Hbuilt. unfold _Delete_command. cbv zeta.
  destruct (truthy_list (replica_zones d)); [|eauto].
  destruct Hbuilt as [|Hzone]; [discriminate|].
  apply delflag_returns. rewrite setflag_flags.
  rewrite lookup_insert_ne by discriminate. exact Hzone.
Qed.

(** X1. A disk without replica zones, be the attribute [None] or the empty
    list, is addressed by zone: its five commands are built without an
    exception and the methods touch none of the flags [zone], [region],
    [replica-zones] and [disk-scope], which stay as the command builder set
    them. *)
Theorem zonal_commands (d : GceDisk) (labels : string) :
  truthy_list (replica_zones d) = false ->
  let untouched (cmd : util.Command) :=
    util.flags cmd !! "zone" = common_flags d !! "zone" /\
    util.flags cmd !! "region" = common_flags d !! "region" /\
    util.flags cmd !! "replica-zones" = common_flags d !! "replica-zones" /\
    util.flags cmd !! "disk-scope" = common_flags d !! "disk-scope" in
  (exists cmd, _Create_command d labels = Ok cmd /\ untouched cmd) /\
  (exists cmd, _Delete_command d = Ok cmd /\ untouched cmd) /\
  (exists cmd, _Describe_command d = Ok cmd /\ untouched cmd) /\
  untouched (Attach_command d) /\
  untouched (Detach_command d).
Proof.
  intros Hrz untouched. subst untouched. cbv beta.
  split; [|split; [|split; [|split]]].
  - destruct (Create_command_built d labels (or_introl Hrz)) as [cmd Hcmd].
    exists cmd. split; [exact Hcmd|].
    rewrite (Create_command_flags _ _ _ Hcmd). cbv zeta. rewrite Hrz.
    destruct (truthy_int (provisioned_iops d) && _), (truthy_str (image d)),
      (truthy_str (image_project d));
      rewrite ?lookup_insert_ne by discriminate; auto.
  - unfold _Delete_command. rewrite Hrz. eexists. split; [reflexivity|].
    cbn [GcloudCommand util.flags]. auto.
  - unfold _Describe_command. rewrite Hrz. eexists. split; [reflexivity|].
    cbn [GcloudCommand util.flags]. auto.
  - unfold Attach_command. rewrite Hrz. rewrite !setflag_flags.
    cbn [GcloudCommand util.flags].
    rewrite !lookup_insert_ne by discriminate. auto.
  - unfold Detach_command. rewrite Hrz. rewrite !setflag_flags.
    cbn [GcloudCommand util.flags].
    rewrite !lookup_insert_ne by discriminate. auto.
Qed.

(** X2. When the command builder has set no zone flag, the three methods
    that address a replicated disk by region cannot delete it: [_Create],
    [_Delete] and [_Describe], and with it [_Ready] and [_Exists], raise
    [KeyError: 'zone'] before any command is issued, and leave the instance
    and the world as they were. *)
Theorem regional_without_zone_flag_raises (d : GceDisk) (w : World) :
  truthy_list (replica_zones d) = true ->
  common_flags d !! "zone" = None ->
  run _Create (d, w) = (Raise (KeyError "zone"), (d, w)) /\
  run _Delete (d, w) = (Raise (KeyError "zone"), (d, w)) /\
  run _Describe (d, w) = (Raise (KeyError "zone"), (d, w)) /\
  run _Ready (d, w) = (Raise (KeyError "zone"), (d, w)) /\
  run _Exists (d, w) = (Raise (KeyError "zone"), (d, w)).
Proof.
  intros Hrz Hzone.
  assert (forall cmd0, util.flags cmd0 !! "zone" = None ->
            util.delflag "zone" cmd0 = Raise (KeyError "zone")) as Hdel.
  { intros cmd0 Hnone. unfold util.delflag. now rewrite Hnone. }
  assert (_Describe_command d = Raise (KeyError "zone")) as Hdescribe.
  { unfold _Describe_command. rewrite Hrz. cbv zeta. apply Hdel.
    rewrite setflag_flags. now rewrite lookup_insert_ne by discriminate. }
  assert (run _Describe (d, w) = (Raise (KeyError "zone"), (d, w))) as Hrun.
  { rewrite run_Describe. now rewrite Hdescribe. }
  split; [|split; [|split; [|split]]].
  - rewrite run_Create.
    assert (_Create_command d (MakeFormattedDefaultTags w)
            = Raise (KeyError "zone")) as ->; [|reflexivity].
    unfold _Create_command. rewrite Hrz. cbv zeta. apply Hdel.
    destruct (truthy_int (provisioned_iops d) && _), (truthy_str (image d)),
      (truthy_str (image_project d));
      rewrite ?setflag_flags; now rewrite ?lookup_insert_ne by discriminate.
  - rewrite run_Delete.
    assert (_Delete_command d = Raise (KeyError "zone")) as ->; [|reflexivity].
    unfold _Delete_command. rewrite Hrz. cbv zeta. apply Hdel.
    rewrite setflag_flags. now rewrite lookup_insert_ne by discriminate.
  - exact Hrun.
  - rewrite run_Ready. now rewrite Hrun.
  - rewrite run_Exists. now rewrite Hrun.
Qed.

(** X3. Whenever the create command is built it carries the size, the type
    and the labels of the call, whatever the command builder had put under
    these flags, and its positional arguments name the disk. The image and
    image-project flags are set exactly for an image and an image project
    that are neither [None] nor the empty string; otherwise they stay as the
    command builder set them. *)
Theorem Create_command_contents (d : GceDisk) (labels : string)
    (cmd : util.Command) :
  _Create_command d labels = Ok cmd ->
  util.args cmd = [PyStr "compute"; PyStr "disks"; PyStr "create";
                   PyStr (name d)] /\
  util.flags cmd !! "size" = Some (PyInt (disk_size d)) /\
  util.flags cmd !! "type" = Some (PyStr (disk_type d)) /\
  util.flags cmd !! "labels" = Some (PyStr labels) /\
  util.flags cmd !! "image" =
    (if truthy_str (image d) then Some (py_of_str (image d))
     else common_flags d !! "image") /\
  util.flags cmd !! "image-project" =
    (if truthy_str (image_project d) then Some (py_of_str (image_project d))
     else common_flags d !! "image-project").
Proof.
  intros Hcmd. split.
  - revert Hcmd. unfold _Create_command. cbv zeta.
    destruct (truthy_int (provisioned_iops d) && _), (truthy_str (image d)),
      (truthy_str (image_project d)), (truthy_list (replica_zones d));
      intros Hcmd;
      first [ injection Hcmd as <-; reflexivity
            | unfold util.delflag in Hcmd;
              destruct (util.flags _ !! "zone"); [|discriminate];
              injection Hcmd as <-; reflexivity ].
  - rewrite (Create_command_flags _ _ _ Hcmd). cbv zeta.
    destruct (truthy_int (provisioned_iops d) && _), (truthy_str (image d)),
      (truthy_str (image_project d)), (truthy_list (replica_zones d));
      now simplify_map_eq.
Qed.

End Addressing.

(** Scenario A on the scripted control plane: the create command of the
    zonal disk [d1] keeps the zone flag and has no region flag. *)
Lemma zonal_commands_scenarios :
  exists cmd,
    @_Create_command (Scripted.env Scripted.flags)
      Scripted.zonal_disk "owner=perfkit" = Ok cmd /\
    util.flags cmd !! "zone" = Some (PyStr "us-central1-a") /\
    util.flags cmd !! "region" = None.
Proof.
  destruct (@zonal_commands (Scripted.env Scripted.flags)
              Scripted.zonal_disk "owner=perfkit" eq_refl)
    as ((cmd & Hcmd & Hzone & Hregion & _) & _).
  exists cmd. split; [exact Hcmd|]. rewrite Hzone, Hregion.
  split; reflexivity.
Defined.

(** The replicated disk on a command builder without zone flag: deleting
    and describing it raise before the tool is run. *)
Lemma regional_without_zone_flag_raises_scenarios :
  let env := Scripted.env_without_zone Scripted.flags in
  let w := [Scripted.answer "" "" 0 false] in
  run (@_Delete env) (Scripted.regional_disk, w)
  = (Raise (KeyError "zone"), (Scripted.regional_disk, w)) /\
  run (@_Exists env) (Scripted.regional_disk, w)
  = (Raise (KeyError "zone"), (Scripted.regional_disk, w)).
Proof.
  intros env w.
  destruct (@regional_without_zone_flag_raises env Scripted.regional_disk w
              eq_refl eq_refl) as (_ & Hdelete & _ & _ & Hexists).
  split; [exact Hdelete | exact Hexists].
Defined.

(** A disk seeded from an image whose project is the empty string: the
    image flag is set, the image-project flag is not. *)
Lemma Create_command_contents_scenarios :
  let d :=
    {| disk_size := 10; disk_type := PD_BALANCED; metadata := ∅;
       attached_vm_name := None; image := Some "debian-11";
       image_project := Some ""; name := "boot"; zone := "europe-west1-b";
       project := "project"; replica_zones := None; region := "europe-west1";
       provisioned_iops := None |} in
  exists cmd,
    @_Create_command (Scripted.env Scripted.flags) d "owner=perfkit" = Ok cmd /\
    util.flags cmd !! "size" = Some (PyInt 10) /\
    util.flags cmd !! "image" = Some (PyStr "debian-11") /\
    util.flags cmd !! "image-project" = None.
Proof.
  intros d.
  edestruct (@Create_command_contents (Scripted.env Scripted.flags) d
               "owner=perfkit" _ eq_refl)
    as (_ & Hsize & _ & _ & Himage & Hproject).
  eexists. split; [reflexivity|].
  split; [exact Hsize|]. split; [exact Himage | exact Hproject].
Defined.

(** ** What the methods raise and what they change *)

Section Outcomes.

Context `{Collaborators}.

Local Abbreviation no_raise := [("raise_on_failure", false)].
Local Abbreviation quiet_no_raise :=
  [("suppress_warning", true); ("raise_on_failure", false)].

(** X4. Once their command is built (a zonal disk, or a zone flag to
    delete) the methods that address the disk do not turn the answer of the
    tool into an exception of their own. [_Delete] returns whatever the
    exit code; [_Create] returns or raises exactly as
    [CheckGcloudResponseKnownFailures] does on the error output and exit
    code; [_Describe] and [_Exists] raise exactly what [json.loads] raises
    on the output when that is not a [ValueError], and return otherwise;
    [_Ready] raises nothing but that, and the [KeyError] and [TypeError] of
    its subscript. *)
Theorem outcomes_once_built (d : GceDisk) (w : World) :
  truthy_list (replica_zones d) = false \/ is_Some (common_flags d !! "zone") ->
  (run _Delete (d, w)).1 = Ok tt /\
  (exists cmd,
     _Create_command d (MakeFormattedDefaultTags w) = Ok cmd /\
     (run _Create (d, w)).1
     = CheckGcloudResponseKnownFailures
         (util.stderr (Issue no_raise cmd w).1)
         (util.retcode (Issue no_raise cmd w).1)) /\
  (exists cmd,
     _Describe_command d = Ok cmd /\
     let stdout := util.stdout (Issue quiet_no_raise cmd w).1 in
     (forall e, (run _Describe (d, w)).1 = Raise e <->
                json_loads stdout = Raise e /\ is_ValueError e = false) /\
     (forall e, (run _Exists (d, w)).1 = Raise e <->
                json_loads stdout = Raise e /\ is_ValueError e = false) /\
     (forall e, (run _Ready (d, w)).1 = Raise e ->
        e = KeyError "status" \/ (exists msg, e = TypeError msg) \/
        (json_loads stdout = Raise e /\ is_ValueError e = false))).
Proof.
  intros Hbuilt.
  destruct (Delete_command_built d Hbuilt) as [cdel Hdel].
  destruct (Describe_command_built d Hbuilt) as [cdesc Hdesc].
  destruct (Create_command_built d (MakeFormattedDefaultTags w) Hbuilt)
    as [ccre Hcre].
  split; [|split].
  - rewrite run_Delete, Hdel. reflexivity.
  - exists ccre. split; [exact Hcre|]. rewrite run_Create, Hcre. reflexivity.
  - exists cdesc. split; [exact Hdesc|]. cbv zeta.
    rewrite run_Ready, run_Exists, run_Describe, Hdesc. cbn [fst snd].
    destruct (parse_describe_cases
                (util.stdout (Issue quiet_no_raise cdesc w).1))
      as (_ & _ & Hto & Hfrom).
    split; [|split].
    + intros e. split; [apply Hfrom | intros [He Hne]; now apply Hto].
    + intros e.
      destruct (parse_describe _) as [v|e'] eqn:Hparse; cbn [fst].
      * split; [discriminate|]. intros [He Hne].
        specialize (Hto _ He Hne). discriminate Hto.
      * split; [intros [= <-]; now apply Hfrom|].
        intros [He Hne]. specialize (Hto _ He Hne). now injection Hto as ->.
    + intros e.
      destruct (parse_describe _) as [v|e'] eqn:Hparse; cbn [fst].
      * destruct v as [| | | | | |kvs]; cbn [getitem_str fst];
          try (intros [= <-]; right; left; eauto).
        destruct (dict_get "status" kvs); cbn [fst]; [discriminate|].
        intros [= <-]. now left.
      * intros [= <-]. right. right. now apply Hfrom.
Qed.

(** X5. The outcome of [_Ready] in full: on a dictionary with a [status]
    item it answers whether the item is the string [READY]; on a dictionary
    without one it raises [KeyError: 'status']; on anything else that
    [_Describe] returns (a list, a string, a number, a boolean, [None]) it
    raises a [TypeError]. It returns exactly in the first case. *)
Theorem Ready_outcomes (d : GceDisk) (w : World) (cmd : util.Command) :
  _Describe_command d = Ok cmd ->
  let described :=
    parse_describe (util.stdout (Issue quiet_no_raise cmd w).1) in
  (forall kvs status,
     described = Ok (PyDict kvs) -> dict_get "status" kvs = Some status ->
     (run _Ready (d, w)).1 = Ok (eq_str status "READY")) /\
  (forall kvs,
     described = Ok (PyDict kvs) -> dict_get "status" kvs = None ->
     (run _Ready (d, w)).1 = Raise (KeyError "status")) /\
  (forall v,
     described = Ok v -> (forall kvs, v <> PyDict kvs) ->
     exists msg, (run _Ready (d, w)).1 = Raise (TypeError msg)) /\
  ((exists ready, (run _Ready (d, w)).1 = Ok ready) <->
   exists kvs status,
     described = Ok (PyDict kvs) /\ dict_get "status" kvs = Some status).
Proof.
  intros Hcmd described. rewrite run_Ready, run_Describe, Hcmd.
  fold described. cbn [fst snd].
  split; [|split; [|split]].
  - intros kvs status -> Hst. cbn [getitem_str]. now rewrite Hst.
  - intros kvs -> Hst. cbn [getitem_str]. now rewrite Hst.
  - intros v -> Hnot. destruct v as [| | | | | |kvs];
      cbn [getitem_str fst]; eauto.
    now destruct (Hnot kvs).
  - destruct described as [[| | | | | |kvs]|e]; cbn [getitem_str fst].
    1-6, 8: split; [intros [ready [=]] | intros (kvs' & st & [=] & _)].
    destruct (dict_get "status" kvs) as [status|] eqn:Hst; cbn [fst]; split.
    + intros _. eauto.
    + intros _. eauto.
    + intros [ready [=]].
    + intros (kvs' & st & [= <-] & Hst'). congruence.
Qed.

(** X6. [_Exists] answers [False] not only for unparsable output: it does
    so exactly when [json.loads] rejects the output with a [ValueError] or
    the output parses to an empty or zero value, that is [null], [false],
    the integer 0, a float zero, the empty string, the empty list or the
    empty dictionary. Every other value [json.loads] returns makes it
    answer [True], and every other exception [json.loads] raises is raised
    by [_Exists]. *)
Theorem Exists_false_iff_empty (d : GceDisk) (w : World) (cmd : util.Command) :
  _Describe_command d = Ok cmd ->
  let parsed := json_loads (util.stdout (Issue quiet_no_raise cmd w).1) in
  ((run _Exists (d, w)).1 = Ok false <->
   (exists msg, parsed = Raise (ValueError msg)) \/
   parsed = Ok PyNone \/ parsed = Ok (PyBool false) \/
   parsed = Ok (PyInt 0) \/
   (exists sign, parsed = Ok (PyFloat (S754_zero sign))) \/
   parsed = Ok (PyStr "") \/ parsed = Ok (PyList []) \/
   parsed = Ok (PyDict [])) /\
  ((run _Exists (d, w)).1 = Ok true <->
   exists v, parsed = Ok v /\ truthy v = true) /\
  (forall e, (run _Exists (d, w)).1 = Raise e <->
             parsed = Raise e /\ is_ValueError e = false).
Proof.
  intros Hcmd parsed. rewrite run_Exists, run_Describe, Hcmd.
  cbn [fst snd]. unfold parse_describe. fold parsed.
  split; [|split].
  - destruct parsed as [[|b|z|f|s|l|kvs]|e]; cbn [truthy fst].
    + split; auto.
    + destruct b; split; auto; try discriminate.
      intros [[msg ?]|[|[|[|[[sign ?]|[|[|]]]]]]]; discriminate.
    + destruct (Z.eqb_spec z 0) as [->|Hz]; cbn [negb]; split; auto 6;
        try discriminate.
      intros [[msg ?]|[|[|[Hz'|[[sign ?]|[|[|]]]]]]]; try discriminate.
      injection Hz' as ->. contradiction.
    + destruct f; split; eauto 8; try discriminate;
        intros [[msg ?]|[|[|[|[[sign ?]|[|[|]]]]]]]; discriminate.
    + destruct (String.eqb_spec s "") as [->|Hs]; cbn [negb]; split; auto 8;
        try discriminate.
      intros [[msg ?]|[|[|[|[[sign ?]|[Hs'|[|]]]]]]]; try discriminate.
      injection Hs' as ->. contradiction.
    + destruct l; split; auto 9; try discriminate.
      intros [[msg ?]|[|[|[|[[sign ?]|[|[|]]]]]]]; discriminate.
    + destruct kvs; split; auto 9; try discriminate.
      intros [[msg ?]|[|[|[|[[sign ?]|[|[|]]]]]]]; discriminate.
    + destruct e; cbn [is_ValueError truthy fst]; split; eauto;
        try discriminate;
        intros [[m ?]|[|[|[|[[sign ?]|[|[|]]]]]]]; discriminate.
  - destruct parsed as [v|e]; cbn [fst].
    + split; [intros [= Hv]; eauto | intros (v' & [= <-] & ->); reflexivity].
    + destruct (is_ValueError e); cbn [truthy fst];
        (split; [discriminate | intros (v' & [=] & _)]).
  - intros e0. destruct parsed as [v|e]; cbn [fst].
    + split; [discriminate | intros [[=] _]].
    + destruct (is_ValueError e) eqn:He; cbn [fst]; split.
      * discriminate.
      * intros [[= <-] Hne]. congruence.
      * intros [= <-]. now split.
      * now intros [[= <-] _].
Qed.

(** X7. A disk that is ready exists: on the same answer of the tool, when
    [_Ready] returns [True] so does [_Exists]. Both issue the describe
    command of [_Describe] and nothing else, so the three leave the same
    state behind. *)
Theorem Ready_implies_Exists (s : State) :
  ((run _Ready s).1 = Ok true -> (run _Exists s).1 = Ok true) /\
  (run _Ready s).2 = (run _Describe s).2 /\
  (run _Exists s).2 = (run _Describe s).2.
Proof.
  rewrite run_Ready, run_Exists.
  destruct (run _Describe s) as [[described|e] s']; cbn [fst snd].
  - split; [|split; [|reflexivity]].
    + destruct described as [| | | | | |kvs]; cbn [getitem_str fst];
        try discriminate.
      destruct kvs as [|kv kvs]; [discriminate|]. reflexivity.
    + now destruct (getitem_str described "status").
  - split; [discriminate|]. split; reflexivity.
Qed.

End Outcomes.

(** On the scripted control plane: a delete command that fails with exit
    code 1, and [_Delete] returns all the same; a describe command whose
    output is nested too deep for [json.loads], and [_Exists] raises its
    [RecursionError]. *)
Lemma outcomes_once_built_scenarios :
  let env := Scripted.env Scripted.flags in
  (run (@_Delete env)
     (Scripted.zonal_disk,
      [Scripted.answer "" "ERROR: The resource was not found" 1 false])).1
  = Ok tt /\
  (run (@_Exists env)
     (Scripted.zonal_disk,
      [Scripted.answer Scripted.deeply_nested "" 0 false])).1
  = Raise (RecursionError
             "maximum recursion depth exceeded while decoding a JSON array from a unicode string").
Proof.
  intros env. split.
  - apply (proj1 (@outcomes_once_built env Scripted.zonal_disk
                    [Scripted.answer "" "ERROR: The resource was not found"
                       1 false]
                    (or_introl eq_refl))).
  - destruct (proj2 (proj2 (@outcomes_once_built env Scripted.zonal_disk
                              [Scripted.answer Scripted.deeply_nested "" 0 false]
                              (or_introl eq_refl))))
      as (cmd & _ & _ & Hexists & _).
    apply Hexists. split; reflexivity.
Defined.

(** The empty dictionary has no status to read, the empty list no items
    under a string. *)
Lemma Ready_outcomes_scenarios :
  let env := Scripted.env Scripted.flags in
  let ready stdout :=
    (run (@_Ready env)
       (Scripted.zonal_disk, [Scripted.answer stdout "" 0 false])).1 in
  ready "{}" = Raise (KeyError "status") /\
  ready (Scripted.status_document "CREATING") = Ok false /\
  exists msg, ready "[]" = Raise (TypeError msg).
Proof.
  intros env ready. subst ready. cbv beta. split; [|split].
  - edestruct (@Ready_outcomes env Scripted.zonal_disk
                 [Scripted.answer "{}" "" 0 false] _ eq_refl)
      as (_ & Hmissing & _).
    eapply Hmissing; reflexivity.
  - edestruct (@Ready_outcomes env Scripted.zonal_disk
                 [Scripted.answer (Scripted.status_document "CREATING") "" 0 false]
                 _ eq_refl) as (Hstatus & _).
    exact (Hstatus _ _ eq_refl eq_refl).
  - edestruct (@Ready_outcomes env Scripted.zonal_disk
                 [Scripted.answer "[]" "" 0 false] _ eq_refl)
      as (_ & _ & Hother & _).
    eapply Hother; [reflexivity|]. intros kvs. discriminate.
Defined.

(** A describe command that prints the empty dictionary, and one that
    prints an error message: the disk is taken not to exist. *)
Lemma Exists_false_iff_empty_scenarios :
  let env := Scripted.env Scripted.flags in
  (run (@_Exists env)
     (Scripted.zonal_disk, [Scripted.answer "{}" "" 0 false])).1 = Ok false /\
  (run (@_Exists env)
     (Scripted.zonal_disk, [Scripted.answer "ERROR: not found" "" 0 false])).1
  = Ok false.
Proof.
  intros env. split.
  - edestruct (@Exists_false_iff_empty env
                 Scripted.zonal_disk [Scripted.answer "{}" "" 0 false] _ eq_refl)
      as [Hiff _].
    apply Hiff. do 7 right. reflexivity.
  - edestruct (@Exists_false_iff_empty env
                 Scripted.zonal_disk
                 [Scripted.answer "ERROR: not found" "" 0 false] _ eq_refl)
      as [Hiff _].
    apply Hiff. left. eexists. reflexivity.
Defined.

(** The ready disk of the scripted control plane exists. *)
Lemma Ready_implies_Exists_scenarios :
  (run (@_Exists (Scripted.env Scripted.flags))
     (Scripted.zonal_disk,
      [Scripted.answer (Scripted.status_document "READY") "" 0 false])).1
  = Ok true.
Proof.
  apply (@Ready_implies_Exists (Scripted.env Scripted.flags)).
  reflexivity.
Defined.

(** ** Attachment *)

Lemma set_attached_vm_name_back (v : option string) (d : GceDisk) :
  set_attached_vm_name (attached_vm_name d) (set_attached_vm_name v d) = d.
Proof. now destruct d. Qed.

Section Attachment.

Context `{Collaborators}.

(** X8. The instance is written by [Attach] and [Detach] alone, and in one
    attribute. [_Create], [_Delete], [_Describe], [_Ready] and [_Exists]
    hand back the instance they were given, whatever they return or raise;
    after [Attach] and after [Detach] every attribute other than
    [attached_vm_name] has the value it had before. *)
Theorem instance_written_by_Attach_and_Detach
    (d : GceDisk) (w : World) (vm : VM.t) :
  (run _Create (d, w)).2.1 = d /\
  (run _Delete (d, w)).2.1 = d /\
  (run _Describe (d, w)).2.1 = d /\
  (run _Ready (d, w)).2.1 = d /\
  (run _Exists (d, w)).2.1 = d /\
  set_attached_vm_name (attached_vm_name d) (run (Attach vm) (d, w)).2.1 = d /\
  set_attached_vm_name (attached_vm_name d) (run Detach (d, w)).2.1 = d.
Proof.
  split; [apply Create_keeps_instance|].
  split; [apply Delete_keeps_instance|].
  split; [apply Describe_keeps_instance|].
  split; [apply Ready_keeps_instance|].
  split; [apply Exists_keeps_instance|].
  split.
  - rewrite run_Attach. cbn [fst snd]. apply set_attached_vm_name_back.
  - rewrite run_Detach.
    destruct (IssueRetryable (Detach_command d) w) as [[o|e] w'];
      cbn [fst snd]; [apply set_attached_vm_name_back | now destruct d].
Qed.

(** X9. Attaching and detaching compose. On a disk that is not attached, a
    call of [Attach], returning or raising, makes the next [Detach] name
    the VM of that call in its command, with the disk as device name; when
    that [Detach] returns, the instance is again the one before the
    [Attach]. A second [Attach] before the [Detach] replaces the VM: only
    the last one is detached. *)
Theorem Attach_then_Detach (vm vm' : VM.t) (d : GceDisk) (w : World) :
  attached_vm_name d = None ->
  let s1 := (run (Attach vm) (d, w)).2 in
  let s2 := (run (Attach vm') s1).2 in
  util.args (Detach_command s1.1)
  = [PyStr "compute"; PyStr "instances"; PyStr "detach-disk";
     PyStr (VM.name vm)] /\
  util.flags (Detach_command s1.1) !! "device-name" = Some (PyStr (name d)) /\
  (forall out, (IssueRetryable (Detach_command s1.1) s1.2).1 = Ok out ->
     (run Detach s1).2.1 = d) /\
  util.args (Detach_command s2.1)
  = [PyStr "compute"; PyStr "instances"; PyStr "detach-disk";
     PyStr (VM.name vm')] /\
  (forall out, (IssueRetryable (Detach_command s2.1) s2.2).1 = Ok out ->
     (run Detach s2).2.1 = d).
Proof.
  intros Hnone s1 s2. subst s2 s1.
  rewrite run_Attach. cbv zeta. cbn [fst snd].
  rewrite run_Attach. cbv zeta. cbn [fst snd].
  assert (forall v, set_attached_vm_name None (set_attached_vm_name v d) = d)
    as Hback.
  { intros v. rewrite <- Hnone. apply set_attached_vm_name_back. }
  assert (forall v v',
            set_attached_vm_name v' (set_attached_vm_name v d)
            = set_attached_vm_name v' d) as Htwice by reflexivity.
  split; [|split; [|split; [|split]]].
  - unfold Detach_command. cbn [attached_vm_name set_attached_vm_name].
    destruct (truthy_list _); reflexivity.
  - unfold Detach_command. cbn [replica_zones name set_attached_vm_name].
    destruct (truthy_list _); rewrite ?setflag_flags;
      rewrite ?lookup_insert_ne by discriminate; apply lookup_insert_eq.
  - intros out Hout. rewrite run_Detach.
    destruct (IssueRetryable _ _) as [[o|e] w']; [|discriminate].
    cbn [fst snd]. apply Hback.
  - rewrite Htwice. unfold Detach_command.
    cbn [attached_vm_name set_attached_vm_name].
    destruct (truthy_list _); reflexivity.
  - intros out Hout. rewrite run_Detach.
    destruct (IssueRetryable _ _) as [[o|e] w']; [|discriminate].
    cbn [fst snd]. rewrite Htwice. apply Hback.
Qed.

End Attachment.

(** Attach to [vm-1], then detach, on the scripted control plane: the
    detach command names [vm-1] and the disk is as before. *)
Lemma Attach_then_Detach_scenarios :
  let env := Scripted.env Scripted.flags in
  let attached :=
    (run (@Attach env Scripted.vm1) (Scripted.zonal_disk, [])).2 in
  util.args (@Detach_command env attached.1)
  = [PyStr "compute"; PyStr "instances"; PyStr "detach-disk"; PyStr "vm-1"] /\
  (run (@Detach env) attached).2.1 = Scripted.zonal_disk.
Proof.
  intros env attached.
  destruct (@Attach_then_Detach env Scripted.vm1 Scripted.vm1
              Scripted.zonal_disk [] eq_refl) as (Hargs & _ & Hback & _).
  split; [exact Hargs|]. exact (Hback ("", "") eq_refl).
Defined.

(** ** Device paths of different disks *)

Lemma append_cancel (p a b : string) : p +:+ a = p +:+ b -> a = b.
Proof.
  induction p as [|c p IH]; [trivial|]. simpl. intros [= Heq]. auto.
Qed.

(** X10. Among disks of one type, under the same flags, the device path
    tells the disks apart: two of them have the same path exactly when they
    have the same name. Every path lies under [/dev/]. *)
Theorem GetDevicePath_distinguishes_names `{Collaborators} (d1 d2 : GceDisk) :
  (disk_type d1 = disk_type d2 ->
   (GetDevicePath d1 = GetDevicePath d2 <-> name d1 = name d2)) /\
  (exists rest, GetDevicePath d1 = "/dev/" +:+ rest).
Proof.
  unfold GetDevicePath. split.
  - intros ->.
    destruct (String.eqb (disk_type d2) disk.LOCAL
              && String.eqb (gce_ssd_interface FLAGS) NVME);
      (split; [apply append_cancel | now intros ->]).
  - destruct (_ && _); [eexists; reflexivity|].
    exists ("disk/by-id/google-" +:+ name d1). reflexivity.
Qed.

(** Two [pd-ssd] disks with different names have different paths. *)
Lemma GetDevicePath_distinguishes_names_scenarios :
  @GetDevicePath (Scripted.env Scripted.flags) (Scripted.ssd_disk "zone")
  <> @GetDevicePath (Scripted.env Scripted.flags) Scripted.regional_disk.
Proof.
  intros Hsame.
  apply (proj1 (@GetDevicePath_distinguishes_names
                  (Scripted.env Scripted.flags)
                  (Scripted.ssd_disk "zone") Scripted.regional_disk)
           eq_refl) in Hsame.
  discriminate Hsame.
Defined.

(** ** The table over a whole process *)

Lemma DISK_METADATA_keys (ty : string) :
  is_Some (DISK_METADATA !! ty) <->
  ty = PD_STANDARD \/ ty = PD_BALANCED \/ ty = PD_SSD \/ ty = PD_EXTREME \/
  ty = disk.LOCAL.
Proof.
  split.
  - intros Hsome.
    destruct (decide (ty = PD_STANDARD)); [auto|].
    destruct (decide (ty = PD_BALANCED)); [auto|].
    destruct (decide (ty = PD_SSD)); [auto|].
    destruct (decide (ty = PD_EXTREME)); [auto|].
    destruct (decide (ty = disk.LOCAL)); [auto 6|].
    exfalso. unfold DISK_METADATA in Hsome.
    rewrite !lookup_insert_ne, lookup_singleton_ne in Hsome by congruence.
    now destruct Hsome.
  - intros [->|[->|[->|[->| ->]]]]; unfold DISK_METADATA;
      rewrite ?lookup_insert_ne by discriminate;
      first [ rewrite lookup_insert_eq | rewrite lookup_singleton_eq ];
      eauto.
Qed.

(** The entries of the table hold a media and a replication, and nothing
    else. *)
Lemma DISK_METADATA_templates (ty : string) (template : gmap string string) :
  DISK_METADATA !! ty = Some template ->
  is_Some (template !! disk.MEDIA) /\
  is_Some (template !! disk.REPLICATION) /\
  (forall k, k <> disk.MEDIA -> k <> disk.REPLICATION -> template !! k = None).
Proof.
  intros Hty.
  assert (exists m r,
            template = {[ disk.MEDIA := m; disk.REPLICATION := r ]})
    as (m & r & ->).
  { destruct (proj1 (DISK_METADATA_keys ty) (ex_intro _ _ Hty))
      as [->|[->|[->|[->| ->]]]];
      unfold DISK_METADATA in Hty;
      rewrite ?lookup_insert_ne in Hty by discriminate;
      first [ rewrite lookup_insert_eq in Hty
            | rewrite lookup_singleton_eq in Hty ];
      injection Hty as <-; eauto. }
  split; [|split].
  - rewrite lookup_insert_eq. eauto.
  - rewrite lookup_insert_ne by discriminate. rewrite lookup_singleton_eq. eauto.
  - intros k Hm Hr. rewrite lookup_insert_ne by congruence.
    now rewrite lookup_singleton_ne by congruence.
Qed.

Section Process.

Context `{Collaborators}.

Lemma constructions_cons (c : ConstructorCall) (calls : list ConstructorCall)
    (table : gmap string (gmap string string)) :
  (constructions (c :: calls) table).2
  = (constructions calls (run (construct_call c) table).2).2.
Proof.
  cbn [constructions]. destruct (run (construct_call c) table) as [r table'].
  cbn [snd]. now destruct (constructions calls table').
Qed.

(** The entry of a type after a sequence of constructor calls. *)
Lemma constructions_lookup (calls : list ConstructorCall)
    (table : gmap string (gmap string string)) (ty : string) :
  (constructions calls table).2 !! ty =
  match table !! ty with
  | Some template =>
      Some (if replicated_in ty calls
            then <[disk.REPLICATION := disk.REGION]> template
            else template)
  | None => None
  end.
Proof.
  revert table. induction calls as [|c calls IH]; intros table.
  - cbn. now destruct (table !! ty).
  - rewrite constructions_cons, IH. unfold construct_call.
    rewrite init_table. cbn [replicated_in existsb].
    fold (replicated_in ty calls).
    destruct (table !! DiskSpec.disk_type (call_spec c)) as [t|] eqn:Htc.
    + destruct (truthy_list (call_replica_zones c)).
      * destruct (String.eqb_spec (DiskSpec.disk_type (call_spec c)) ty)
          as [<-|Hne]; cbn [andb orb].
        -- rewrite lookup_insert_eq, Htc.
           destruct (replicated_in _ calls); [|reflexivity].
           now rewrite insert_insert_eq.
        -- now rewrite lookup_insert_ne by exact Hne.
      * rewrite andb_false_r. reflexivity.
    + destruct (String.eqb_spec (DiskSpec.disk_type (call_spec c)) ty)
        as [<-|Hne]; cbn [andb orb]; [|reflexivity].
      now rewrite Htc.
Qed.

(** What [constructions_lookup] gives for the keys, the media and the
    replication of the table. *)
Lemma constructions_table_entries (calls : list ConstructorCall)
    (table : gmap string (gmap string string)) (ty : string)
    (template : gmap string string) :
  table !! ty = Some template ->
  exists template',
    (constructions calls table).2 !! ty = Some template' /\
    template' !! disk.MEDIA = template !! disk.MEDIA /\
    template' !! disk.REPLICATION =
      (if replicated_in ty calls then Some disk.REGION
       else template !! disk.REPLICATION) /\
    (forall k, k <> disk.REPLICATION -> template' !! k = template !! k).
Proof.
  intros Hty. rewrite constructions_lookup, Hty. eexists. split; [reflexivity|].
  destruct (replicated_in ty calls).
  - split; [now rewrite lookup_insert_ne by discriminate|].
    split; [apply lookup_insert_eq|].
    intros k Hk. now rewrite lookup_insert_ne by congruence.
  - auto.
Qed.

(** X11. Over any sequence of constructor calls in one process, the table
    [DISK_METADATA] changes in one way only. No key is added or removed and
    no media entry changes; the entry of a type is rewritten, its
    replication becoming [region], exactly when one of the calls builds a
    disk of that type with replica zones, and no later call sets it back. *)
Theorem constructions_table (calls : list ConstructorCall)
    (table : gmap string (gmap string string)) (ty : string) :
  let after := (constructions calls table).2 in
  (is_Some (after !! ty) <-> is_Some (table !! ty)) /\
  (forall template, table !! ty = Some template ->
     after !! ty =
       Some (if replicated_in ty calls
             then <[disk.REPLICATION := disk.REGION]> template
             else template) /\
     (after !! ty ≫= lookup disk.MEDIA) = template !! disk.MEDIA) /\
  (forall template more,
     table !! ty = Some template -> replicated_in ty calls = true ->
     (constructions (calls ++ more) table).2 !! ty
     = Some (<[disk.REPLICATION := disk.REGION]> template)).
Proof.
  intros after. subst after. split; [|split].
  - rewrite constructions_lookup.
    destruct (table !! ty); split; intros [x Hx]; eauto; discriminate.
  - intros template Hty. rewrite constructions_lookup, Hty.
    split; [reflexivity|]. cbn.
    destruct (replicated_in ty calls); [|reflexivity].
    now rewrite lookup_insert_ne by discriminate.
  - intros template more Hty Hrep. rewrite constructions_lookup, Hty.
    unfold replicated_in in *. now rewrite existsb_app, Hrep.
Qed.

(** X12. In a process that has made any number of constructor calls, the
    constructor returns an instance exactly for the five types of the
    table: [pd-standard], [pd-balanced], [pd-ssd], [pd-extreme] and
    [local]. For every other type it raises [KeyError] with the type as key
    and leaves the table as it was. Every type the map [DISK_TYPE] resolves
    an abstract kind to is among the five. *)
Theorem constructor_returns_iff_known_type
    (calls : list ConstructorCall) (c : ConstructorCall) :
  let table := (constructions calls DISK_METADATA).2 in
  let ty := DiskSpec.disk_type (call_spec c) in
  let known :=
    ty = PD_STANDARD \/ ty = PD_BALANCED \/ ty = PD_SSD \/ ty = PD_EXTREME \/
    ty = disk.LOCAL in
  ((exists d, (run (construct_call c) table).1 = Ok d) <-> known) /\
  (~ known -> run (construct_call c) table = (Raise (KeyError ty), table)) /\
  (forall kind, DISK_TYPE !! kind = Some ty -> known).
Proof.
  intros table ty known. subst known.
  assert (is_Some (table !! ty) <-> is_Some (DISK_METADATA !! ty)) as Hsame.
  { subst table. rewrite constructions_lookup.
    destruct (DISK_METADATA !! ty); split; intros [x Hx]; eauto; discriminate. }
  split; [|split].
  - rewrite <- DISK_METADATA_keys, <- Hsame. unfold construct_call.
    rewrite run_init. cbv zeta. fold ty.
    destruct (table !! ty); cbn [fst]; split; eauto.
    + intros [d [=]].
    + intros [x [=]].
  - intros Hnot. rewrite <- DISK_METADATA_keys, <- Hsame in Hnot.
    unfold construct_call. rewrite run_init. cbv zeta. fold ty.
    destruct (table !! ty); [|reflexivity].
    exfalso. apply Hnot. eauto.
  - intros kind Hkind. unfold DISK_TYPE in Hkind.
    destruct (decide (kind = disk.STANDARD)) as [->|Hs].
    + rewrite lookup_insert_eq in Hkind. injection Hkind as <-. auto.
    + rewrite lookup_insert_ne in Hkind by congruence.
      destruct (decide (kind = disk.REMOTE_SSD)) as [->|Hr].
      * rewrite lookup_singleton_eq in Hkind. injection Hkind as <-. auto.
      * rewrite lookup_singleton_ne in Hkind by congruence. discriminate.
Qed.

End Process.

(** A replicated [pd-ssd] disk, then a zonal one: the entry of [pd-ssd]
    has the replication [region] and keeps it. *)
Lemma constructions_table_scenarios :
  let env := Scripted.env Scripted.flags in
  let ssd := {| DiskSpec.disk_type := PD_SSD; DiskSpec.disk_size := 500 |} in
  let replicated :=
    {| call_spec := ssd; call_name := "d2"; call_zone := "us-central1-a";
       call_project := "project"; call_image := None;
       call_image_project := None;
       call_replica_zones := Some ["zone-a"; "zone-b"] |} in
  let zonal :=
    {| call_spec := ssd; call_name := "d1"; call_zone := "us-central1-a";
       call_project := "project"; call_image := None;
       call_image_project := None; call_replica_zones := None |} in
  (@constructions env ([replicated] ++ [zonal]) DISK_METADATA).2 !! PD_SSD
  = Some (<[disk.REPLICATION := disk.REGION]>
            {[ disk.MEDIA := disk.SSD; disk.REPLICATION := disk.ZONE ]}).
Proof.
  intros env ssd replicated zonal.
  apply (proj2 (proj2 (@constructions_table env [replicated]
                         DISK_METADATA PD_SSD))); [|reflexivity].
  unfold DISK_METADATA. rewrite !lookup_insert_ne by discriminate.
  apply lookup_insert_eq.
Defined.

(** The abstract kind [standard] is not a type of the table: the
    constructor wants the type [DISK_TYPE] resolves it to. *)
Lemma constructor_returns_iff_known_type_scenarios :
  let env := Scripted.env Scripted.flags in
  let call ty :=
    {| call_spec := {| DiskSpec.disk_type := ty; DiskSpec.disk_size := 500 |};
       call_name := "d1"; call_zone := "us-central1-a";
       call_project := "project"; call_image := None;
       call_image_project := None; call_replica_zones := None |} in
  (run (@construct_call env (call disk.STANDARD)) DISK_METADATA).1
  = Raise (KeyError "standard") /\
  exists d, (run (@construct_call env (call PD_STANDARD)) DISK_METADATA).1 = Ok d.
Proof.
  intros env call. split.
  - refine (f_equal fst
              (proj1 (proj2 (@constructor_returns_iff_known_type env []
                               (call disk.STANDARD))) _)).
    intros [Hty|[Hty|[Hty|[Hty|Hty]]]]; discriminate Hty.
  - apply (proj1 (@constructor_returns_iff_known_type env []
                    (call PD_STANDARD))).
    left. reflexivity.
Defined.

(** ** The metadata of an instance *)

Section Metadata.

Context `{Collaborators}.

(** X13. The metadata of an instance built at any point of a process. Its
    media is the media of its type; its replication is [region] when the
    call has replica zones or an earlier call of the process built a disk
    of the same type with replica zones, and the replication of its type
    otherwise; both replace what [BaseDisk] had put under these keys. The
    key [interface] is set, to the interface flag, for the local type only,
    and the key [replica_zones], to the list, for a call with replica zones
    only; [provisioned_iops] is set exactly to a non-zero value of the
    attribute; without these the keys are as [BaseDisk] left them. *)
Theorem metadata_of_constructed
    (calls : list ConstructorCall) (c : ConstructorCall) (d : GceDisk) :
  let ty := DiskSpec.disk_type (call_spec c) in
  let base := BaseDisk_metadata (call_spec c) in
  (run (construct_call c) (constructions calls DISK_METADATA).2).1 = Ok d ->
  exists template,
    DISK_METADATA !! ty = Some template /\
    metadata d !! disk.MEDIA = PyStr <$> template !! disk.MEDIA /\
    metadata d !! disk.REPLICATION =
      (if truthy_list (call_replica_zones c) || replicated_in ty calls
       then Some (PyStr disk.REGION)
       else PyStr <$> template !! disk.REPLICATION) /\
    metadata d !! "interface" =
      (if String.eqb ty disk.LOCAL
       then Some (PyStr (gce_ssd_interface FLAGS)) else base !! "interface") /\
    metadata d !! "replica_zones" =
      (if truthy_list (call_replica_zones c)
       then Some (py_of_list (call_replica_zones c))
       else base !! "replica_zones") /\
    metadata d !! "provisioned_iops" =
      (if truthy_int (provisioned_iops d)
       then Some (py_of_int (provisioned_iops d))
       else base !! "provisioned_iops").
Proof.
  intros ty base Hinit. unfold construct_call in Hinit.
  rewrite run_init in Hinit. cbv zeta in Hinit. fold ty base in Hinit.
  destruct (DISK_METADATA !! ty) as [template|] eqn:Htemplate.
  2: { rewrite constructions_lookup, Htemplate in Hinit. discriminate. }
  destruct (constructions_table_entries calls _ _ _ Htemplate)
    as (current & Hcurrent & Hmedia & Hrepl & Hother).
  destruct (DISK_METADATA_templates _ _ Htemplate)
    as ([m Hm] & [r Hr] & Hnone).
  rewrite Hcurrent in Hinit. cbn [fst] in Hinit. injection Hinit as <-.
  cbn [metadata provisioned_iops].
  exists template. split; [reflexivity|].
  set (written := if truthy_list (call_replica_zones c)
                  then <[disk.REPLICATION := disk.REGION]> current
                  else current).
  set (md0 := if truthy_list (call_replica_zones c)
              then <["replica_zones" := py_of_list (call_replica_zones c)]> base
              else base).
  assert (forall k, ((PyStr <$> written) ∪ md0) !! k =
                    match written !! k with
                    | Some v => Some (PyStr v)
                    | None => md0 !! k
                    end) as Hunion.
  { intros k. rewrite lookup_union, lookup_fmap.
    destruct (written !! k), (md0 !! k); reflexivity. }
  assert (forall k, k <> disk.REPLICATION -> written !! k = template !! k)
    as Hwritten.
  { intros k Hk. subst written.
    destruct (truthy_list (call_replica_zones c));
      rewrite ?lookup_insert_ne by congruence; now apply Hother. }
  assert (truthy_int (if String.eqb ty PD_EXTREME
                      then gcp_provisioned_iops FLAGS else None)
          && String.eqb ty PD_EXTREME
          = truthy_int (if String.eqb ty PD_EXTREME
                        then gcp_provisioned_iops FLAGS else None)) as ->.
  { destruct (String.eqb ty PD_EXTREME);
      [apply andb_true_r | reflexivity]. }
  repeat split.
  - destruct (truthy_int _), (String.eqb ty disk.LOCAL);
      rewrite ?lookup_insert_ne by discriminate;
      rewrite Hunion, Hwritten by discriminate; now rewrite Hm.
  - assert (written !! disk.REPLICATION =
            if truthy_list (call_replica_zones c) || replicated_in ty calls
            then Some disk.REGION else template !! disk.REPLICATION) as Hw.
    { subst written. destruct (truthy_list (call_replica_zones c));
        cbn [orb]; [apply lookup_insert_eq | exact Hrepl]. }
    destruct (truthy_int _), (String.eqb ty disk.LOCAL);
      rewrite ?lookup_insert_ne by discriminate;
      rewrite Hunion, Hw;
      destruct (truthy_list (call_replica_zones c) || replicated_in ty calls);
      try reflexivity; now rewrite Hr.
  - destruct (truthy_int _), (String.eqb ty disk.LOCAL);
      rewrite ?lookup_insert_ne by discriminate;
      rewrite ?lookup_insert_eq; try reflexivity;
      rewrite Hunion, Hwritten, Hnone by discriminate; subst md0;
      destruct (truthy_list (call_replica_zones c));
      now rewrite ?lookup_insert_ne by discriminate.
  - destruct (truthy_int _), (String.eqb ty disk.LOCAL);
      rewrite ?lookup_insert_ne by discriminate;
      rewrite Hunion, Hwritten, Hnone by discriminate; subst md0;
      destruct (truthy_list (call_replica_zones c));
      now rewrite ?lookup_insert_eq.
  - destruct (truthy_int _); [apply lookup_insert_eq|].
    destruct (String.eqb ty disk.LOCAL);
      rewrite ?lookup_insert_ne by discriminate;
      rewrite Hunion, Hwritten, Hnone by discriminate; subst md0;
      destruct (truthy_list (call_replica_zones c));
      now rewrite ?lookup_insert_ne by discriminate.
Qed.

(** The key [provisioned_iops] in the metadata of an instance. *)
Lemma constructed_metadata_iops
    (calls : list ConstructorCall) (c : ConstructorCall) (d : GceDisk) :
  (run (construct_call c) (constructions calls DISK_METADATA).2).1 = Ok d ->
  metadata d !! "provisioned_iops" =
    (if truthy_int (provisioned_iops d)
     then Some (py_of_int (provisioned_iops d))
     else BaseDisk_metadata (call_spec c) !! "provisioned_iops").
Proof.
  intros Hinit. unfold construct_call in Hinit.
  rewrite run_init in Hinit. cbv zeta in Hinit.
  destruct (DISK_METADATA !! DiskSpec.disk_type (call_spec c))
    as [template|] eqn:Htemplate.
  2: { rewrite constructions_lookup, Htemplate in Hinit. discriminate. }
  destruct (constructions_table_entries calls _ _ _ Htemplate)
    as (current & Hcurrent & _ & _ & Hother).
  destruct (DISK_METADATA_templates _ _ Htemplate) as (_ & _ & Hnone).
  rewrite Hcurrent in Hinit. cbn [fst] in Hinit. injection Hinit as <-.
  cbn [metadata provisioned_iops].
  destruct (String.eqb (DiskSpec.disk_type (call_spec c)) PD_EXTREME);
    cbn [andb truthy_int]; rewrite ?andb_true_r.
  - destruct (truthy_int (gcp_provisioned_iops FLAGS));
      [apply lookup_insert_eq|].
    destruct (String.eqb _ disk.LOCAL);
      rewrite ?lookup_insert_ne by discriminate;
      rewrite lookup_union_r;
      destruct (truthy_list (call_replica_zones c));
      rewrite ?lookup_insert_ne by discriminate; try reflexivity;
      rewrite lookup_fmap, ?lookup_insert_ne by discriminate;
      now rewrite Hother, Hnone by discriminate.
  - destruct (String.eqb _ disk.LOCAL);
      rewrite ?lookup_insert_ne by discriminate;
      rewrite lookup_union_r;
      destruct (truthy_list (call_replica_zones c));
      rewrite ?lookup_insert_ne by discriminate; try reflexivity;
      rewrite lookup_fmap, ?lookup_insert_ne by discriminate;
      now rewrite Hother, Hnone by discriminate.
Qed.

(** X14. The metadata of an instance and its create command agree on the
    provisioned IOPS: when neither [BaseDisk] nor the command builder sets
    them, the key [provisioned_iops] is in the metadata exactly when the
    flag [provisioned-iops] is on the create command, and with the same
    value. *)
Theorem provisioned_iops_reported_as_created
    (calls : list ConstructorCall) (c : ConstructorCall) (d : GceDisk)
    (labels : string) (cmd : util.Command) :
  (run (construct_call c) (constructions calls DISK_METADATA).2).1 = Ok d ->
  BaseDisk_metadata (call_spec c) !! "provisioned_iops" = None ->
  common_flags d !! "provisioned-iops" = None ->
  _Create_command d labels = Ok cmd ->
  metadata d !! "provisioned_iops" = util.flags cmd !! "provisioned-iops".
Proof.
  intros Hinit Hbase Hcommon Hcmd.
  rewrite (constructed_metadata_iops _ _ _ Hinit), Hbase.
  destruct (init_attributes _ _ _ _ _ _ _ _ _ Hinit)
    as (Hty & _ & _ & _ & _ & _ & _ & _ & _ & _ & Hiops).
  rewrite (Create_command_flags _ _ _ Hcmd). cbv zeta.
  assert (truthy_int (provisioned_iops d)
          && String.eqb (disk_type d) PD_EXTREME
          = truthy_int (provisioned_iops d)) as ->.
  { rewrite Hty, Hiops.
    destruct (String.eqb (DiskSpec.disk_type (call_spec c)) PD_EXTREME);
      [apply andb_true_r | reflexivity]. }
  destruct (truthy_int (provisioned_iops d)), (truthy_str (image d)),
    (truthy_str (image_project d)), (truthy_list (replica_zones d));
    now simplify_map_eq.
Qed.

End Metadata.

(** A zonal [pd-ssd] disk built after a replicated one, on the scripted
    control plane: its metadata reports the media of [pd-ssd] and the
    replication [region]. *)
Lemma metadata_of_constructed_scenarios :
  let env := Scripted.env Scripted.flags in
  let ssd := {| DiskSpec.disk_type := PD_SSD; DiskSpec.disk_size := 500 |} in
  let replicated :=
    {| call_spec := ssd; call_name := "d2"; call_zone := "us-central1-a";
       call_project := "project"; call_image := None;
       call_image_project := None;
       call_replica_zones := Some ["zone-a"; "zone-b"] |} in
  let zonal :=
    {| call_spec := ssd; call_name := "d1"; call_zone := "us-central1-a";
       call_project := "project"; call_image := None;
       call_image_project := None; call_replica_zones := None |} in
  exists d,
    (run (@construct_call env zonal)
       (@constructions env [replicated] DISK_METADATA).2).1 = Ok d /\
    metadata d !! disk.MEDIA = Some (PyStr disk.SSD) /\
    metadata d !! disk.REPLICATION = Some (PyStr disk.REGION).
Proof.
  intros env ssd replicated zonal.
  assert ((run (@construct_call env zonal)
             (@constructions env [replicated] DISK_METADATA).2).1
          = Ok (Scripted.ssd_disk "region")) as Hinit
    by (vm_compute; reflexivity).
  exists (Scripted.ssd_disk "region"). split; [exact Hinit|].
  destruct (@metadata_of_constructed env [replicated] zonal _ Hinit)
    as (template & Htemplate & Hmedia & Hreplication & _).
  assert (template = {[ disk.MEDIA := disk.SSD; disk.REPLICATION := disk.ZONE ]})
    as ->.
  { change (DISK_METADATA !! PD_SSD = Some template) in Htemplate.
    unfold DISK_METADATA in Htemplate.
    rewrite !lookup_insert_ne in Htemplate by discriminate.
    rewrite lookup_insert_eq in Htemplate. now injection Htemplate. }
  split; [rewrite Hmedia | rewrite Hreplication]; reflexivity.
Defined.

(** The extreme disk of scenario B reports the 10000 IOPS its create
    command asks for. *)
Lemma provisioned_iops_reported_as_created_scenarios :
  let env := Scripted.env (Scripted.flags_with_iops (Some 10000)) in
  let extreme :=
    {| call_spec :=
         {| DiskSpec.disk_type := PD_EXTREME; DiskSpec.disk_size := 500 |};
       call_name := "d3"; call_zone := "us-central1-a";
       call_project := "project"; call_image := None;
       call_image_project := None; call_replica_zones := None |} in
  let d :=
    {| disk_size := 500; disk_type := PD_EXTREME;
       metadata := {[ "media" := PyStr "ssd"; "replication" := PyStr "zone";
                      "provisioned_iops" := PyInt 10000 ]};
       attached_vm_name := None; image := None; image_project := None;
       name := "d3"; zone := "us-central1-a"; project := "project";
       replica_zones := None; region := "us-central1";
       provisioned_iops := Some 10000 |} in
  (run (@construct_call env extreme) DISK_METADATA).1 = Ok d /\
  exists cmd,
    @_Create_command env d "owner=perfkit" = Ok cmd /\
    metadata d !! "provisioned_iops" = util.flags cmd !! "provisioned-iops".
Proof.
  intros env extreme d.
  assert ((run (@construct_call env extreme)
             (@constructions env [] DISK_METADATA).2).1 = Ok d) as Hinit
    by (vm_compute; reflexivity).
  split; [exact Hinit|].
  eexists. split; [reflexivity|].
  exact (@provisioned_iops_reported_as_created env [] extreme d
           "owner=perfkit" _ Hinit eq_refl eq_refl eq_refl).
Defined.
